(** * Binance USDT-M perpetual futures bot: decision logic

    A shallow embedding of the two scripts of the repository,
    - [binance_list_open.js]     (entry scanner), module [Scanner];
    - [binance_support_close.js] (position manager), module [Manager];
    and the properties of their entry, exit, funding, top-up and close logic.

    JavaScript numbers are IEEE-754 binary64 values: they are modelled by
    Rocq's primitive floats, so that [NaN], signed zeros and rounding behave
    as in the scripts.  Calls to the exchange and to Telegram are modelled by
    an explicit record of responses and a trace of emitted events. *)

From Stdlib Require Import Floats ZArith List String Ascii Bool Lia.
From Stdlib Require Import DecimalString DecimalZ DecimalPos Permutation Sorted.
Import ListNotations.
Local Open Scope string_scope.
Local Open Scope bool_scope.

(* ================================================================== *)
(** ** JavaScript values used by the scripts *)
(* ================================================================== *)

Module JS.

(** A JavaScript Number. *)
Definition number : Set := float.
Bind Scope float_scope with number.

Declare Scope js_scope.
Delimit Scope js_scope with js.

(** The relational and arithmetic operators on numbers; each comparison
    is [false] as soon as one operand is [NaN]. *)
Notation "a < b" := (PrimFloat.ltb a b) : js_scope.
Notation "a <= b" := (PrimFloat.leb a b) : js_scope.
Notation "a > b" := (PrimFloat.ltb b a) (only parsing) : js_scope.
Notation "a >= b" := (PrimFloat.leb b a) (only parsing) : js_scope.
Notation "a === b" := (PrimFloat.eqb a b) (at level 70, no associativity) : js_scope.
Notation "a * b" := (PrimFloat.mul a b) : js_scope.
Notation "a / b" := (PrimFloat.div a b) : js_scope.

Definition NaN : number := PrimFloat.nan.
Definition Math_abs (x : number) : number := PrimFloat.abs x.

(** [ToBoolean] on a number: [0], [-0] and [NaN] are falsy. *)
Definition truthyNumber (x : number) : bool :=
  negb (PrimFloat.is_zero x || PrimFloat.is_nan x).

(** The classes of the finite numbers in the IEEE-754 specification: the
    zeros and the normal and subnormal values. *)
Definition SFfinite (x : spec_float) : bool :=
  match x with
  | S754_zero _ | S754_finite _ _ _ => true
  | S754_infinity _ | S754_nan => false
  end.

(** A property that holds a string when present; [None] is [undefined].
    The exchange's REST objects carry every figure as a decimal string. *)
Definition field : Set := option string.

(** [ToBoolean] on such a property: [undefined] and [''] are falsy. *)
Definition truthy (v : field) : bool :=
  match v with
  | Some s => negb (s =? "")
  | None => false
  end.

(** [v === 'lit'] for a string literal. *)
Definition equals (v : field) (lit : string) : bool :=
  match v with
  | Some s => s =? lit
  | None => false
  end.

(** The text of a property once it is known to be present. *)
Definition text (v : field) : string :=
  match v with
  | Some s => s
  | None => "undefined"
  end.

(** The language's string-to-number conversions are built-ins, not code of
    the repository: the model is parameterised by them. *)
Class Builtins : Set := {
  (** [parseFloat(s)]: the longest numeric prefix of [s], else [NaN]. *)
  parseFloat : string -> number;
  (** [Number(s)], which is also the implicit [ToNumber] of [s * x]. *)
  ToNumber : string -> number
}.

(** Conversions applied to a possibly absent property:
    [parseFloat(undefined)] and [Number(undefined)] are [NaN]. *)
Definition parseFloatOf `{Builtins} (v : field) : number :=
  match v with
  | Some s => parseFloat s
  | None => NaN
  end.

Definition NumberOf `{Builtins} (v : field) : number :=
  match v with
  | Some s => ToNumber s
  | None => NaN
  end.

(** *** A reader of plain decimal literals

    [sign? digits ('.' digits)?].  It instantiates [Builtins] when the
    model is run on concrete positions.  The value is the quotient of two
    integers, each rounded to binary64, so it is the correctly rounded
    value of the literal whenever the literal has at most 15 significant
    digits (both integers are then exact and the division rounds once).
    The other forms the language accepts (exponents, [Infinity], blanks
    around the literal) are not read; the sample positions do not use
    them. *)

Definition digitOf (c : ascii) : option Z :=
  let n := Z.of_nat (nat_of_ascii c) in
  if ((48 <=? n) && (n <=? 57))%Z then Some (n - 48)%Z else None.

(** Reads a run of digits: the accumulated value, the number of digits
    read and the rest of the string. *)
Fixpoint readDigits (s : string) (acc : Z) (count : nat) : Z * nat * string :=
  match s with
  | String c rest =>
      match digitOf c with
      | Some d => readDigits rest (10 * acc + d)%Z (S count)
      | None => (acc, count, s)
      end
  | EmptyString => (acc, count, s)
  end.

Definition ofZ (z : Z) : number := SF2Prim (binary_normalize prec emax z 0 false).

(** The number read and the unread rest; [None] when no digit was read. *)
Definition readDecimal (s : string) : option (number * string) :=
  let '(negative, body) :=
    match s with
    | String "-" rest => (true, rest)
    | String "+" rest => (false, rest)
    | _ => (false, s)
    end in
  let '(int, nint, afterInt) := readDigits body 0 0 in
  let '(mant, nfrac, rest) :=
    match afterInt with
    | String "." frac => readDigits frac int 0
    | _ => (int, 0%nat, afterInt)
    end in
  match (nint + nfrac)%nat with
  | O => None
  | _ =>
      let magnitude := (ofZ mant / ofZ (10 ^ Z.of_nat nfrac))%js in
      Some (if negative then PrimFloat.opp magnitude else magnitude, rest)
  end.

Definition decimalBuiltins : Builtins := {|
  parseFloat s :=
    match readDecimal s with
    | Some (x, _) => x
    | None => NaN
    end;
  ToNumber s :=
    match s with
    | "" => PrimFloat.zero
    | _ =>
        match readDecimal s with
        | Some (x, "") => x
        | _ => NaN
        end
    end
|}.

End JS.

Import JS.

(* The decimal literals of the scripts ([0.03], [0.10]) denote the nearest
   binary64 value, in JavaScript as here. *)
Set Warnings "-inexact-float".

(* ================================================================== *)
(** ** Exchange objects, errors and effects *)
(* ================================================================== *)

(** An element of the array returned by [futuresPositionRisk()]. *)
Record Position : Set := {
  symbol : field;
  positionAmt : field;
  positionSide : field;
  entryPrice : field;
  markPrice : field;
  unRealizedProfit : field;
  isolatedWallet : field
}.

(** What the promise of [futuresPositionRisk()] resolves to: the array of
    the positions, or, when the exchange refuses the request, the body of
    its answer, an object [{code, msg}] that is not an array: it has no
    [length] and none of the array methods. *)
Inductive PositionData : Set :=
| Positions (rows : list Position)
| ErrorBody (code : Z) (msg : string).

(** What [getMarketPrice] reads of a ticker: the number [ticker.last] and
    the raw string [ticker.info?.lastPrice]. *)
Record Ticker : Set := {
  last : option number;
  info_lastPrice : field
}.

(** The value of [ticker.last || ticker.info?.lastPrice]. *)
Inductive value : Set :=
| Undefined
| Num (x : number)
| Str (s : string).

Definition ToBoolean (v : value) : bool :=
  match v with
  | Undefined => false
  | Num x => truthyNumber x
  | Str s => negb (s =? "")
  end.

Definition ofNumber (v : option number) : value :=
  match v with
  | Some x => Num x
  | None => Undefined
  end.

Definition ofField (v : field) : value :=
  match v with
  | Some s => Str s
  | None => Undefined
  end.

(** [a || b]. *)
Definition orElse (a b : value) : value := if ToBoolean a then a else b.

(** The implicit [ToNumber] of a comparison or a division. *)
Definition toNum `{Builtins} (v : value) : number :=
  match v with
  | Undefined => NaN
  | Num x => x
  | Str s => ToNumber s
  end.

(** The order object an SDK call resolves to; its content is not inspected. *)
Definition Order : Set := string.

Inductive Error : Set :=
| Rejected (message : string)            (* an SDK promise that rejects *)
| PriceNotFound                          (* 'Price not found in ticker data' *)
| FailedToFetchMarketPrice (cause : Error)
| FailedToFetchBalance (cause : Error)
| InvalidPositionData                    (* 'Invalid position data' *)
| PositionQuantityIsZero                 (* 'Position quantity is zero' *)
| NoOpenPositionFound                    (* 'No open position found.' *)
| InvalidSymbolProvided                  (* 'Invalid symbol provided' *)
| NotIsolated (symbol : string)
| InsufficientBalance (available required : number).

(** The Telegram messages of the two scripts, by their content. *)
Inductive Notice : Set :=
| SignalNotice (symbol : string)
| MaxPositionsReached
| InsufficientBalanceNotice (available : number)
| PositionOpened (symbol : string) (quantity : number) (positionSide : string)
| PositionClosed (symbol : string) (quantity : number) (positionSide : string)
| MarginAdded (amount : number) (symbol : string) (positionSide : field).

(** The calls that reach the outside world. *)
Inductive Event : Set :=
| CreateOrder (symbol side : string) (quantity : number) (positionSide : string)
| FuturesMarketBuy (symbol : string) (quantity : number) (positionSide : string)
| FuturesMarketSell (symbol : string) (quantity : number) (positionSide : string)
| Telegram (n : Notice).

(** An [async] computation: the events it emits, in order, and how it
    settles. *)
Inductive Outcome (A : Type) : Type :=
| Resolve (a : A)
| Throw (e : Error).
Arguments Resolve {A} a.
Arguments Throw {A} e.

Definition IO (A : Type) : Type := list Event * Outcome A.

Definition ret {A} (a : A) : IO A := ([], Resolve a).
Definition throw {A} (e : Error) : IO A := ([], Throw e).
Definition emit (ev : Event) : IO unit := ([ev], Resolve tt).
(** [await] of an SDK response. *)
Definition await {A} (response : Outcome A) : IO A := ([], response).

Definition bind {A B} (m : IO A) (k : A -> IO B) : IO B :=
  match m with
  | (t, Resolve a) => let (t', r) := k a in ((t ++ t')%list, r)
  | (t, Throw e) => (t, Throw e)
  end.

(** [try { m } catch (error) { handler(error) }]. *)
Definition tryCatch {A} (m : IO A) (handler : Error -> IO A) : IO A :=
  match m with
  | (t, Resolve a) => (t, Resolve a)
  | (t, Throw e) => let (t', r) := handler e in ((t ++ t')%list, r)
  end.

Declare Scope io_scope.
Delimit Scope io_scope with io.
Notation "x <- m ;; k" := (bind m (fun x => k))
  (at level 61, m at next level, right associativity) : io_scope.
Notation "m ;; k" := (bind m (fun _ => k))
  (at level 61, right associativity) : io_scope.
Local Open Scope io_scope.

Definition trace {A} (m : IO A) : list Event := fst m.
Definition outcome {A} (m : IO A) : Outcome A := snd m.

(** [sendTelegramMessage]: the send is attempted; a failure is logged and
    never propagates (both scripts). *)
Definition sendTelegramMessage (n : Notice) : IO unit := emit (Telegram n).

(** Runs the plumbing of an [IO] computation in a goal. *)
Ltac run_io :=
  unfold bind, tryCatch, await, ret, throw, emit, sendTelegramMessage,
    trace, outcome in *;
  simpl in *.

(** An event that places an order. *)
Definition isOrder (ev : Event) : bool :=
  match ev with
  | Telegram _ => false
  | _ => true
  end.

Definition orders (t : list Event) : list Event := filter isOrder t.

(* ================================================================== *)
(** ** [binance_list_open.js]: the entry scanner *)
(* ================================================================== *)

Module Scanner.

(** The thresholds and flags at the top of the script (lines 18-22), and
    the literal [1] of [price < 1], gathered as the parameters of the entry
    rule.  The other constants keep their values below. *)
Record Config : Set := {
  MAX_ACTIVE_POSITIONS : nat;
  SELL_RSI_THRESHOLD : number;
  BUY_RSI_THRESHOLD : number;
  SHORT : bool;
  LONG : bool;
  PRICE_CEILING : number
}.

(** The values the script runs with. *)
Definition sourceConfig : Config := {|
  MAX_ACTIVE_POSITIONS := 1;
  SELL_RSI_THRESHOLD := 80;
  BUY_RSI_THRESHOLD := 10;
  SHORT := true;
  LONG := false;
  PRICE_CEILING := 1
|}.

Definition POSITION_USDT : number := 5.
Definition LEVERAGE : number := 3.
Definition AMOUNT_PER_POSITION : number := (POSITION_USDT * LEVERAGE)%js.
Definition TESTING_MODE : bool := false.

Inductive EntryDecision : Set := OpenLong | OpenShort | NoAction.

(** The responses of the exchange to the calls of [openPosition]. *)
Record Exchange : Set := {
  futuresPositionRisk : Outcome PositionData;
  fetchBalance : Outcome (option number);          (* [balance.free?.USDT] *)
  fetchTicker : string -> Outcome Ticker;
  createOrder : string -> string -> number -> string -> Outcome Order
}.

(** [main], lines 437-443, the two branches after the housekeeping of a
    symbol: which position, if any, the scanner asks [openPosition] for. *)
Definition entrySignal (c : Config) (rsi price : number) : EntryDecision :=
  if (rsi >= SELL_RSI_THRESHOLD c)%js && negb TESTING_MODE
     && (price < PRICE_CEILING c)%js && SHORT c
  then OpenShort
  else if (rsi <= BUY_RSI_THRESHOLD c)%js && (rsi > 0)%js && negb TESTING_MODE
          && (price < PRICE_CEILING c)%js && LONG c
  then OpenLong
  else NoAction.

(** [openPosition], line 296, the first test:
    [positionData.length >= MAX_ACTIVE_POSITIONS]. *)
Definition maxPositionsReached (c : Config) (activePositionCount : nat) : bool :=
  (MAX_ACTIVE_POSITIONS c <=? activePositionCount)%nat.

(** The same test on what the request resolved to.  An object that is
    not an array has no [length]: the test is [undefined >= n], which is
    [false] for every [n], and [openPosition] goes on. *)
Definition limitReached (c : Config) (positionData : PositionData) : bool :=
  match positionData with
  | Positions rows => maxPositionsReached c (List.length rows)
  | ErrorBody _ _ => false
  end.

(** The entry decision: the request of [main], let through by the
    position-count gate of [openPosition].  The lemmas [tradeSymbol_orders]
    and [tradeSymbol_places_order] below relate it to the orders the
    scanner places. *)
Definition evaluate (c : Config) (rsi lastPrice : number)
    (activePositionCount : nat) : EntryDecision :=
  match entrySignal c rsi lastPrice with
  | NoAction => NoAction
  | request => if maxPositionsReached c activePositionCount then NoAction else request
  end.

(** The [side] argument [main] passes to [openPosition]. *)
Definition sideOf (d : EntryDecision) : option string :=
  match d with
  | OpenShort => Some "sell"
  | OpenLong => Some "buy"
  | NoAction => None
  end.

Section WithBuiltins.
Context `{Builtins}.

(** Lines 193-202; the balance is [balance.free?.USDT || 0]. *)
Definition getBalance (ex : Exchange) : IO number :=
  tryCatch
    (balance <- await (fetchBalance ex) ;;
     ret (match balance with
          | Some usdt => if truthyNumber usdt then usdt else 0%float
          | None => 0%float
          end))
    (fun error => throw (FailedToFetchBalance error)).

(** Lines 240-249. *)
Definition getMarketPrice (ex : Exchange) (symbol : string) : IO value :=
  tryCatch
    (ticker <- await (fetchTicker ex symbol) ;;
     let price := orElse (ofNumber (last ticker)) (ofField (info_lastPrice ticker)) in
     if negb (ToBoolean price) then throw PriceNotFound else ret price)
    (fun error => throw (FailedToFetchMarketPrice error)).

(** Lines 277-285; a failed request counts as no open position, and so
    does an answer that is not an array: [positionData.some] is not a
    function there, and the [TypeError] is caught with the rest. *)
Definition alreadyOpenedFuturesPosition
    (response : Outcome PositionData) (symbol0 : string) : bool :=
  match response with
  | Resolve (Positions positionData) =>
      existsb (fun position =>
                 equals (symbol position) symbol0
                 && negb (NumberOf (positionAmt position) === 0)%js)
              positionData
  | Resolve (ErrorBody _ _) => false
  | Throw _ => false
  end.

(** Lines 293-323.  An error is logged and the call resolves to
    [undefined]. *)
Definition openPosition (c : Config) (ex : Exchange) (symbol0 side : string)
    : IO (option Order) :=
  tryCatch
    (positionData <- await (futuresPositionRisk ex) ;;
     if limitReached c positionData then
       sendTelegramMessage MaxPositionsReached ;;
       ret None
     else
       balance <- getBalance ex ;;
       if (balance < POSITION_USDT)%js then
         sendTelegramMessage (InsufficientBalanceNotice balance) ;;
         ret None
       else
         price <- getMarketPrice ex symbol0 ;;
         let quantity := (AMOUNT_PER_POSITION / toNum price)%js in
         let positionSide := if side =? "Buy" then "LONG" else "SHORT" in
         emit (CreateOrder symbol0 side quantity positionSide) ;;
         order <- await (createOrder ex symbol0 side quantity positionSide) ;;
         sendTelegramMessage (PositionOpened symbol0 quantity positionSide) ;;
         ret (Some order))
    (fun error => ret None).

(** [main], lines 434-443, the body of the loop over the symbols from the
    test of an already open position on: [check] is the response to the
    [futuresPositionRisk()] of that test, [rsi] and [price] are the
    values fetched before it. *)
Definition tradeSymbol (c : Config) (check : Outcome PositionData)
    (ex : Exchange) (symbol0 : string) (rsi : number) (price : value) : IO unit :=
  if alreadyOpenedFuturesPosition check symbol0 then ret tt
  else
    match sideOf (entrySignal c rsi (toNum price)) with
    | Some side =>
        sendTelegramMessage (SignalNotice symbol0) ;;
        openPosition c ex symbol0 side ;;
        ret tt
    | None => ret tt
    end.

End WithBuiltins.

End Scanner.

(* ================================================================== *)
(** ** [binance_support_close.js]: the position manager *)
(* ================================================================== *)

Module Manager.

(** The constants at the top of the script (lines 15-19), as parameters. *)
Record Config : Set := {
  profit : number;                 (* target profit, as a share of the margin *)
  supportPerPosition : number;     (* share of the isolated margin to add *)
  excludedSymbols : list string
}.

(** The values the script runs with. *)
Definition sourceConfig : Config := {|
  profit := 0.03;
  supportPerPosition := 0.10;
  excludedSymbols := []
|}.

Inductive ExitDecision : Set := ClosePosition | NoAction.

(** The responses of the exchange to the calls of the manager. *)
Record Exchange : Set := {
  fetchTicker : string -> Outcome Ticker;
  futuresMarketBuy : string -> number -> string -> Outcome Order;
  futuresMarketSell : string -> number -> string -> Outcome Order;
  fetchBalance : Outcome (option number);          (* [balance.free?.USDT] *)
  fapiPrivateGetPositionSideDual : Outcome bool;   (* [dualSidePosition] *)
  fetchPositions : string -> Outcome unit
}.

(** [listOpenFuturesPositions], lines 239-240, the test that prints
    [Profitable: YES] or [Profitable: NO]. *)
Definition isFundingFavorable (side : field) (fundingRate : number) : bool :=
  (equals side "LONG" && (fundingRate < 0)%js)
  || (equals side "SHORT" && (fundingRate > 0)%js).

(** [listOpenFuturesPositions], lines 249-252, the profit test on the two
    numbers. *)
Definition exitRule (profitRatio isolatedMargin unrealizedProfit : number)
    : ExitDecision :=
  let calculatedProfit := (isolatedMargin * profitRatio)%js in
  if (unrealizedProfit >= calculatedProfit)%js then ClosePosition else NoAction.

Section WithBuiltins.
Context `{Builtins}.

(** The same test on a position object, whose figures are strings. *)
Definition evaluate (c : Config) (position : Position) : ExitDecision :=
  exitRule (profit c)
           (NumberOf (isolatedWallet position))
           (NumberOf (unRealizedProfit position)).

(** Lines 319-330; the error is logged and thrown again. *)
Definition getMarketPrice (ex : Exchange) (symbol0 : string) : IO value :=
  tryCatch
    (ticker <- await (fetchTicker ex symbol0) ;;
     let price := orElse (ofNumber (last ticker)) (ofField (info_lastPrice ticker)) in
     if negb (ToBoolean price) then throw PriceNotFound else ret price)
    (fun error => throw error).

(** Lines 274-312; the error is logged and thrown again. *)
Definition closePosition (ex : Exchange) (position : Position) : IO Order :=
  tryCatch
    (if negb (truthy (symbol position)) || negb (truthy (positionAmt position))
        || negb (truthy (positionSide position))
     then throw InvalidPositionData
     else
       let symbol0 := text (symbol position) in
       let quantity := Math_abs (parseFloatOf (positionAmt position)) in
       if (quantity === 0)%js then throw PositionQuantityIsZero
       else
         price <- getMarketPrice ex symbol0 ;;
         let positionSide0 := text (positionSide position) in
         let oppositeSide := if positionSide0 =? "LONG" then "SELL" else "BUY" in
         order <- (if oppositeSide =? "BUY"
                   then emit (FuturesMarketBuy symbol0 quantity positionSide0) ;;
                        await (futuresMarketBuy ex symbol0 quantity positionSide0)
                   else emit (FuturesMarketSell symbol0 quantity positionSide0) ;;
                        await (futuresMarketSell ex symbol0 quantity positionSide0)) ;;
         sendTelegramMessage (PositionClosed symbol0 quantity positionSide0) ;;
         ret order)
    (fun error => throw error).

(** [listOpenFuturesPositions], lines 246-259, the body of the loop over
    the open positions from the exclusion test on; an error of
    [closePosition] is logged. *)
Definition managePosition (c : Config) (ex : Exchange) (position : Position)
    : IO unit :=
  tryCatch
    (if existsb (equals (symbol position)) (excludedSymbols c) then ret tt
     else
       match evaluate c position with
       | ClosePosition => order <- closePosition ex position ;; ret tt
       | NoAction => ret tt
       end)
    (fun err => ret tt).

(** Lines 408-418. *)
Definition getBalance (ex : Exchange) : IO number :=
  tryCatch
    (balance <- await (fetchBalance ex) ;;
     ret (match balance with
          | Some usdt => if truthyNumber usdt then usdt else 0%float
          | None => 0%float
          end))
    (fun error => throw error).

(** [addMarginToPosition], lines 354-355, the amount it sizes:
    [position.isolatedWallet * supportPerPosition]. *)
Definition amountForSupport (c : Config) (position : Position) : number :=
  (NumberOf (isolatedWallet position) * supportPerPosition c)%js.

(** The [try] block of [addMarginToPosition], lines 338-395.  The call
    that would add the margin is commented out in the script, and the
    [params] built for it (with the amount rounded to two decimals) are
    never used: the amount only reaches the log and the Telegram
    message. *)
Definition addMarginToPosition_try (c : Config) (ex : Exchange)
    (position : option Position) : IO unit :=
  match position with
  | None => throw NoOpenPositionFound
  | Some position =>
      if negb (truthy (symbol position)) then throw InvalidSymbolProvided
      else
        let symbol0 := text (symbol position) in
        if equals (isolatedWallet position) "0" then throw (NotIsolated symbol0)
        else
          usdtBalance <- getBalance ex ;;
          let amount := amountForSupport c position in
          if (usdtBalance < amount)%js
          then throw (InsufficientBalance usdtBalance amount)
          else
            isHedgeMode <- await (fapiPrivateGetPositionSideDual ex) ;;
            updatedPosition <- await (fetchPositions ex symbol0) ;;
            sendTelegramMessage (MarginAdded amount symbol0 (positionSide position))
  end.

(** [addMarginToPosition]: every error is logged and swallowed. *)
Definition addMarginToPosition (c : Config) (ex : Exchange)
    (position : option Position) : IO unit :=
  tryCatch (addMarginToPosition_try c ex position) (fun error => ret tt).

End WithBuiltins.

End Manager.


(* ================================================================== *)
(** ** Text: symbols, Telegram messages and timestamps (both scripts) *)
(* ================================================================== *)

Notation "a + b" := (PrimFloat.add a b) : js_scope.
Notation "a - b" := (PrimFloat.sub a b) : js_scope.

Module Text.

(** [s.includes(needle)]. *)
Fixpoint includes (s needle : string) : bool :=
  String.prefix needle s
  || match s with
     | String _ rest => includes rest needle
     | EmptyString => false
     end.

(** [s] without its first [n] characters. *)
Fixpoint skip (n : nat) (s : string) : string :=
  match n, s with
  | S n', String _ rest => skip n' rest
  | _, _ => s
  end.

(** [s.replace(pattern, replacement)] for a string pattern and a
    replacement without [$]: the first occurrence only is replaced. *)
Fixpoint replace (s pattern replacement : string) : string :=
  if String.prefix pattern s
  then replacement ++ skip (String.length pattern) s
  else match s with
       | String c rest => String c (replace rest pattern replacement)
       | EmptyString => EmptyString
       end.

(** [normalizeSymbol], lines 182-187 of the scanner and 198-203 of the
    manager: [BTCUSDT] becomes [BTC/USDT]. *)
Definition normalizeSymbol (symbol0 : string) : string :=
  if includes symbol0 "USDT" && negb (includes symbol0 "/")
  then replace symbol0 "USDT" "/USDT"
  else symbol0.

Definition newline : ascii := ascii_of_nat 10.

(** [message.replace(/,/g, '\n')]. *)
Fixpoint replaceCommas (message : string) : string :=
  match message with
  | String c rest =>
      String (if Ascii.eqb c "," then newline else c) (replaceCommas rest)
  | EmptyString => EmptyString
  end.

Definition TELEGRAM_MESSAGE_PREFIX : string := "".
Definition TELEGRAM_MESSAGE_SUFFIX : string := String newline "- Sent from Binance".

(** [sendTelegramMessage], the text it hands to the bot (lines 122-123 of
    the scanner, 97-98 of the manager). *)
Definition finalMessage (message : string) : string :=
  TELEGRAM_MESSAGE_PREFIX ++ replaceCommas message ++ TELEGRAM_MESSAGE_SUFFIX.

(** [String(n)] for a non-negative integer and for an integer. *)
Definition showNat (n : nat) : string := NilZero.string_of_uint (Nat.to_uint n).
Definition showZ (z : Z) : string := NilZero.string_of_int (Z.to_int z).

Fixpoint repeatChar (c : ascii) (n : nat) : string :=
  match n with
  | O => EmptyString
  | S n' => String c (repeatChar c n')
  end.

(** [s.padStart(targetLength, c)] for a one-character filler. *)
Definition padStart (s : string) (targetLength : nat) (c : ascii) : string :=
  repeatChar c (targetLength - String.length s) ++ s.

(** The getters of a [Date] in the local time zone: [getFullYear],
    [getMonth] (from 0), [getDate], [getHours], [getMinutes],
    [getSeconds]. *)
Record DateParts : Set := {
  getFullYear : Z;
  getMonth : nat;
  getDate : nat;
  getHours : nat;
  getMinutes : nat;
  getSeconds : nat
}.

(** What the getters return on a valid date. *)
Definition validParts (d : DateParts) : Prop :=
  getMonth d < 12 /\ getDate d < 32 /\ getHours d < 24
  /\ getMinutes d < 60 /\ getSeconds d < 60.

(** [new Date(timestamp)] is a built-in of the language: the model is
    parameterised by it (for the timestamps that are valid dates). *)
Class DateBuiltins : Set := {
  localDate : Z -> DateParts
}.

(** The text of [formatTimestamp] for the parts of a date. *)
Definition formatParts (d : DateParts) : string :=
  let year := showZ (getFullYear d) in
  let month := padStart (showNat (getMonth d + 1)) 2 "0" in
  let day := padStart (showNat (getDate d)) 2 "0" in
  let hours := padStart (showNat (getHours d)) 2 "0" in
  let minutes := padStart (showNat (getMinutes d)) 2 "0" in
  let seconds := padStart (showNat (getSeconds d)) 2 "0" in
  year ++ "-" ++ month ++ "-" ++ day ++ " " ++ hours ++ ":" ++ minutes ++ ":" ++ seconds.

(** [formatTimestamp], lines 111-120 of the manager. *)
Definition formatTimestamp `{DateBuiltins} (timestamp : Z) : string :=
  formatParts (localDate timestamp).

End Text.

(** The class of [NaN] in the IEEE-754 specification. *)
Definition SFnan (x : spec_float) : bool :=
  match x with
  | S754_nan => true
  | _ => false
  end.

(** The answer of an SDK or library call whose error is only read through
    its message: the data, or the message of the rejection. *)
Inductive Reply (A : Type) : Type :=
| Data (a : A)
| Failure (message : string).
Arguments Data {A} a.
Arguments Failure {A} message.

(** A [TypeError] of the runtime for a property read on [undefined]; as an
    [Error] it is known by its message. *)
Definition TypeError (property : string) : Error :=
  Rejected ("Cannot read properties of undefined (reading '" ++ property ++ "')").

(** [for (const x of items) { body }] with the position of [x], for the
    responses that differ from one turn to the next. *)
Fixpoint forEachFrom {A : Type} (body : nat -> A -> IO unit) (i : nat)
    (items : list A) : IO unit :=
  match items with
  | [] => ret tt
  | x :: rest => body i x ;; forEachFrom body (S i) rest
  end.


(* ================================================================== *)
(** ** [binance_list_open.js]: candles, indicators and the scan *)
(* ================================================================== *)

Module ScannerLoop.
Import Scanner Text.

Definition EXCLUDED_SYMBOLS : list string := ["USDCUSDT"].
Definition RSI_PERIOD : nat := 5.

(** A row of [binance.fetchOHLCV]:
    [[timestamp, open, high, low, close, volume]], all numbers. *)
Record Candle : Set := {
  candleTimestamp : number;
  candleOpen : number;
  candleHigh : number;
  candleLow : number;
  candleClose : number;
  candleVolume : number
}.

(** [a[a.length - 1]]: [undefined] on an empty array. *)
Definition lastOf {A : Type} (a : list A) : option A :=
  match a with
  | [] => None
  | x :: rest => Some (List.last rest x)
  end.

(** [fetchOHLCV], lines 137-151: the rows as objects, or the error of the
    request under a new message. *)
Definition fetchOHLCV (symbol0 : string) (response : Reply (list Candle))
    : Reply (list Candle) :=
  match response with
  | Data ohlcv => Data ohlcv
  | Failure message =>
      Failure ("Failed to fetch OHLCV for " ++ symbol0 ++ ": " ++ message)
  end.

(** What the scanner reads of the result of [calculateRSI]. *)
Record RsiResult : Set := {
  rsi : option number;       (* [undefined] when the indicator is empty *)
  rsiTimestamp : number;
  lastClose : number
}.

Section WithIndicator.

(** [tulind.indicators.rsi.indicator([closePrices], [period])], an external
    library: the first output series, or the message of its error. *)
Variable rsiIndicator : list number -> nat -> Reply (list number).

(** [calculateRSI], lines 158-175. *)
Definition calculateRSI (symbol0 : string) (response : Reply (list Candle))
    : Reply RsiResult :=
  let failed message :=
    Failure ("Failed to calculate RSI for " ++ symbol0 ++ ": " ++ message) in
  match fetchOHLCV symbol0 response with
  | Failure message => failed message
  | Data ohlcv =>
      let closePrices := map candleClose ohlcv in
      match rsiIndicator closePrices RSI_PERIOD with
      | Failure message => failed message
      | Data series =>
          let latestRSI := lastOf series in
          match lastOf ohlcv with
          | None =>
              failed "Cannot read properties of undefined (reading 'timestamp')"
          | Some lastCandle =>
              Data {| rsi := latestRSI;
                      rsiTimestamp := candleTimestamp lastCandle;
                      lastClose := candleClose lastCandle |}
          end
      end
  end.

End WithIndicator.

(** [parseFloat(x)] for a number [x]: the number is printed and read back,
    which gives [x] again, but for [-0], printed ["0"]. *)
Definition parseFloatNumber (x : number) : number :=
  if (x === 0)%js then 0%float else x.

Record Kline : Set := {
  klineClose : number;
  klineTimestamp : number
}.

(** [fetchKlines], lines 332-349: the candles without the last one when it
    is less than a minute old at [now] (the value of [Date.now()]). *)
Definition fetchKlines (response : Reply (list Candle)) (now : number)
    : Reply (list Kline) :=
  let failed message := Failure ("Failed to fetch klines: " ++ message) in
  match response with
  | Failure message => failed message
  | Data klines =>
      match lastOf klines with
      | None => failed "Cannot read properties of undefined (reading '0')"
      | Some lastCandle =>
          let candleTime := candleTimestamp lastCandle in
          let intervalMs := (1 * 60 * 1000)%js in
          let complete :=
            if (now - candleTime < intervalMs)%js
            then List.removelast klines
            else klines in
          Data (map (fun k => {| klineClose := parseFloatNumber (candleClose k);
                                 klineTimestamp := candleTimestamp k |})
                    complete)
      end
  end.

(** The loop of [calculateManualEMA]. *)
Fixpoint emaFrom (k ema : number) (closePrices : list number) : list number :=
  match closePrices with
  | [] => []
  | price :: rest =>
      let ema' := (price * k + ema * (1 - k))%js in
      ema' :: emaFrom k ema' rest
  end.

(** [calculateManualEMA], lines 371-381; an element [None] is
    [undefined], and an argument [per] that is [undefined] takes the
    default ['5']. *)
Definition calculateManualEMA `{Builtins} (closePrices : list number) (per : value)
    : list (option number) :=
  let per := match per with Undefined => Str "5" | _ => per end in
  let period := toNum per in
  let k := (2 / (period + 1))%js in
  match closePrices with
  | [] => [None]
  | first :: rest => Some first :: map Some (emaFrom k first rest)
  end.

(** An element of [exchangeInfo.symbols]. *)
Record SymbolInfo : Set := {
  infoSymbol : field;
  contractType : field;
  quoteAsset : field;
  status : field
}.

(** [main], lines 398-400: the symbols the scanner goes through. *)
Definition tradableSymbols (symbols : list SymbolInfo) : list field :=
  map infoSymbol
      (filter (fun s => equals (contractType s) "PERPETUAL"
                        && equals (quoteAsset s) "USDT"
                        && equals (status s) "TRADING")
              symbols).

(** What the exchange answers while one symbol is processed. *)
Record Feed : Set := {
  ohlcv : Reply (list Candle);         (* the candles of [calculateRSI] *)
  klines : Reply (list Candle);        (* the candles of [fetchKlines] *)
  now : number;                        (* [Date.now()] in [fetchKlines] *)
  quote : Exchange;                    (* the ticker of line 428 *)
  check : Outcome PositionData;        (* the positions of line 434 *)
  exchange : Exchange                  (* the calls of [openPosition] *)
}.

Section WithBuiltins.
Context `{Builtins}.
Variable rsiIndicator : list number -> nat -> Reply (list number).

(** [EMA.calculate({ period, values })] of the library
    [technicalindicators]: its output, or the message of its error. *)
Variable emaIndicator : nat -> list number -> Reply (list number).

(** [calculateEMA], lines 357-363. *)
Definition calculateEMA (closePrices : list number) (p : nat) : Reply (list number) :=
  emaIndicator p closePrices.

(** [main], lines 403-447, the body of the loop over the symbols.  The
    funding rate and the leverage and margin settings only reach the log:
    their errors are caught where they arise. *)
Definition scanSymbol (c : Config) (feed : Feed) (symbol0 : field) : IO unit :=
  tryCatch
    (if existsb (equals symbol0) EXCLUDED_SYMBOLS then ret tt
     else
       match symbol0 with
       | None => throw (TypeError "includes")
       | Some symbol1 =>
           let normalizedSymbol := normalizeSymbol symbol1 in
           match calculateRSI rsiIndicator normalizedSymbol (ohlcv feed) with
           | Failure message => throw (Rejected message)
           | Data rsiResult =>
               match rsi rsiResult with
               | None => throw (TypeError "toFixed")
               | Some rsi0 =>
                   match fetchKlines (klines feed) (now feed) with
                   | Failure message => throw (Rejected message)
                   | Data klines0 =>
                       let closePrices := map klineClose klines0 in
                       match calculateEMA closePrices 20 with
                       | Failure message => throw (Rejected message)
                       | Data ema20Values =>
                           price <- getMarketPrice (quote feed) normalizedSymbol ;;
                           tradeSymbol c (check feed) (exchange feed) symbol1 rsi0 price
                       end
                   end
               end
           end
       end)
    (fun error => ret tt).

(** [main], lines 393-452, one turn of the outer loop: [account] answers
    the balance request, [exchangeInfo] is [exchangeInfo.symbols], and
    [feedAt i] answers while the symbol at position [i] is processed. *)
Definition scanCycle (c : Config) (account : Exchange)
    (exchangeInfo : Outcome (list SymbolInfo)) (feedAt : nat -> Feed) : IO unit :=
  tryCatch
    (balance <- getBalance account ;;
     symbols0 <- await exchangeInfo ;;
     let symbols := tradableSymbols symbols0 in
     forEachFrom (fun i symbol0 => scanSymbol c (feedAt i) symbol0) 0 symbols)
    (fun err => ret tt).

End WithBuiltins.

End ScannerLoop.

(* ================================================================== *)
(** ** [binance_support_close.js]: the monitoring loop and the trades *)
(* ================================================================== *)

Module ManagerLoop.
Import Manager Text.

Section WithBuiltins.
Context `{Builtins}.



End WithBuiltins.

(** An element of [futuresUserTrades]; [time] is in milliseconds since the
    epoch, an integer. *)
Record Trade : Set := {
  tradeTime : Z;
  tradePositionSide : field;
  tradeQty : field;
  tradeSide : field;
  tradeId : Z
}.

(** [a === b] for two properties. *)
Definition sameField (a b : field) : bool :=
  match a, b with
  | Some x, Some y => x =? y
  | None, None => true
  | _, _ => false
  end.

(** [trades.sort((a, b) => a.time - b.time)]: the sort of the language is
    stable, and on integer times the comparator is a total preorder, so
    the result is the stable arrangement by non-decreasing time, which
    insertion from the right computes. *)
Fixpoint insertByTime (trade : Trade) (sorted : list Trade) : list Trade :=
  match sorted with
  | [] => [trade]
  | next :: rest =>
      if (tradeTime trade <=? tradeTime next)%Z
      then trade :: next :: rest
      else next :: insertByTime trade rest
  end.

Definition sortByTime (trades : list Trade) : list Trade :=
  fold_right insertByTime [] trades.

(** What [getPositionCreationDate] returns. *)
Record CreationInfo : Set := {
  infoSymbol : string;
  infoPositionSide : field;
  infoPositionAmt : field;
  creationDate : string;
  infoTradeId : Z;
  infoTradeTime : Z
}.

Section WithBuiltins.
Context `{Builtins}.

(** The signed quantity of a trade: [parseFloat(trade.qty)] times [1] for a
    BUY and [-1] otherwise. *)
Definition signedQty (trade : Trade) : number :=
  (parseFloatOf (tradeQty trade)
   * (if equals (tradeSide trade) "BUY" then 1 else -1))%js.

(** [getPositionCreationDate], lines 146-165: the loop over the sorted
    trades, from the quantity accumulated so far. *)
Fixpoint findCreationTrade (positionSide0 : field) (targetPositionAmt : number)
    (accumulatedQty : number) (trades : list Trade) : option Trade :=
  match trades with
  | [] => None
  | trade :: rest =>
      if sameField (tradePositionSide trade) positionSide0 then
        let qty := signedQty trade in
        let previousAccumulatedQty := accumulatedQty in
        let accumulatedQty := (accumulatedQty + qty)%js in
        if equals positionSide0 "LONG"
           && (accumulatedQty >= targetPositionAmt)%js
           && (previousAccumulatedQty < targetPositionAmt)%js
        then Some trade
        else if equals positionSide0 "SHORT"
                && (accumulatedQty <= targetPositionAmt)%js
                && (previousAccumulatedQty > targetPositionAmt)%js
        then Some trade
        else findCreationTrade positionSide0 targetPositionAmt accumulatedQty rest
      else findCreationTrade positionSide0 targetPositionAmt accumulatedQty rest
  end.

(** The vocabulary of the properties of that loop: the trades of one side,
    the quantity accumulated over a run of them, added in order from
    [start], and the test that ends the loop, on the quantity before and
    after a trade. *)
Definition ofSide (positionSide0 : field) (trades : list Trade) : list Trade :=
  filter (fun trade => sameField (tradePositionSide trade) positionSide0) trades.

Definition accumulated (start : number) (trades : list Trade) : number :=
  fold_left (fun quantity trade => (quantity + signedQty trade)%js) trades start.

Definition reaches (positionSide0 : field) (targetPositionAmt : number)
    (previousAccumulatedQty accumulatedQty : number) : bool :=
  (equals positionSide0 "LONG"
   && (accumulatedQty >= targetPositionAmt)%js
   && (previousAccumulatedQty < targetPositionAmt)%js)
  || (equals positionSide0 "SHORT"
      && (accumulatedQty <= targetPositionAmt)%js
      && (previousAccumulatedQty > targetPositionAmt)%js).

Context `{DateBuiltins}.

(** [getPositionCreationDate], lines 131-192; [response] answers
    [futuresUserTrades], with [None] for a falsy answer, and the result
    [None] is [null]. *)
Definition getPositionCreationDate (response : Reply (option (list Trade)))
    (symbol0 : string) (positionSide0 positionAmt0 : field) : option CreationInfo :=
  match response with
  | Failure _ => None
  | Data None => None
  | Data (Some []) => None
  | Data (Some trades) =>
      let sorted := sortByTime trades in
      let targetPositionAmt := parseFloatOf positionAmt0 in
      match findCreationTrade positionSide0 targetPositionAmt 0 sorted with
      | None => None
      | Some creationTrade =>
          Some {| infoSymbol := symbol0;
                  infoPositionSide := positionSide0;
                  infoPositionAmt := positionAmt0;
                  creationDate := formatTimestamp (tradeTime creationTrade);
                  infoTradeId := tradeId creationTrade;
                  infoTradeTime := tradeTime creationTrade |}
      end
  end.

End WithBuiltins.

End ManagerLoop.


(* ================================================================== *)
(** ** Sample dates, trades and scans *)
(* ================================================================== *)

Module LoopSamples.
Import Text ScannerLoop ManagerLoop.

(** The calendar date of a day counted from 1970-01-01, in the proleptic
    Gregorian calendar. *)
Definition civilFromDays (days : Z) : Z * Z * Z :=
  let z := (days + 719468)%Z in
  let era := (z / 146097)%Z in
  let doe := (z - era * 146097)%Z in
  let yoe := ((doe - doe / 1460 + doe / 36524 - doe / 146096) / 365)%Z in
  let doy := (doe - (365 * yoe + yoe / 4 - yoe / 100))%Z in
  let mp := ((5 * doy + 2) / 153)%Z in
  let d := (doy - (153 * mp + 2) / 5 + 1)%Z in
  let m := (if mp <? 10 then mp + 3 else mp - 9)%Z in
  let y := (yoe + era * 400 + (if m <=? 2 then 1 else 0))%Z in
  (y, m, d).

(** The dates of a process whose time zone is UTC. *)
Definition utcDate : DateBuiltins := {|
  localDate timestamp :=
    let seconds := (timestamp / 1000)%Z in
    let '(y, m, d) := civilFromDays (seconds / 86400) in
    let secondOfDay := (seconds mod 86400)%Z in
    {| getFullYear := y;
       getMonth := Z.to_nat (m - 1);
       getDate := Z.to_nat d;
       getHours := Z.to_nat (secondOfDay / 3600);
       getMinutes := Z.to_nat (secondOfDay mod 3600 / 60);
       getSeconds := Z.to_nat (secondOfDay mod 60) |}
|}.

(** A LONG position of 0.003 built by two buys, after a sell on the SHORT
    side of the same symbol. *)
Definition shortSell : Trade := {|
  tradeTime := 1700000000000;
  tradePositionSide := Some "SHORT";
  tradeQty := Some "0.5";
  tradeSide := Some "SELL";
  tradeId := 11
|}.

Definition firstBuy : Trade := {|
  tradeTime := 1700000060000;
  tradePositionSide := Some "LONG";
  tradeQty := Some "0.001";
  tradeSide := Some "BUY";
  tradeId := 12
|}.

Definition secondBuy : Trade := {|
  tradeTime := 1700000120000;
  tradePositionSide := Some "LONG";
  tradeQty := Some "0.002";
  tradeSide := Some "BUY";
  tradeId := 13
|}.

(** A symbol of the exchange, its candles and what the exchange answers
    while it is scanned: an RSI of 85 at a price of 0.5, no open position,
    50 USDT free. *)
Definition dogeInfo : SymbolInfo := {|
  ScannerLoop.infoSymbol := Some "DOGEUSDT";
  contractType := Some "PERPETUAL";
  quoteAsset := Some "USDT";
  status := Some "TRADING"
|}.

Definition dogeCandle : Candle := {|
  candleTimestamp := 1700000000000;
  candleOpen := 0.5;
  candleHigh := 0.5;
  candleLow := 0.5;
  candleClose := 0.5;
  candleVolume := 1000
|}.

Definition noPosition : Scanner.Exchange := {|
  Scanner.futuresPositionRisk := Resolve (Positions []);
  Scanner.fetchBalance := Resolve (Some 50%float);
  Scanner.fetchTicker :=
    fun _ => Resolve {| last := Some 0.5%float; info_lastPrice := Some "0.5" |};
  Scanner.createOrder := fun _ _ _ _ => Resolve "order"
|}.

Definition dogeFeed : Feed := {|
  ohlcv := Data [dogeCandle];
  klines := Data [dogeCandle];
  now := 1700000090000;
  quote := noPosition;
  check := Resolve (Positions []);
  exchange := noPosition
|}.

Definition overbought : list number -> nat -> Reply (list number) :=
  fun _ _ => Data [85%float].

Definition noAverage : nat -> list number -> Reply (list number) :=
  fun _ _ => Data [].

End LoopSamples.


(* ================================================================== *)
(** ** Sample configurations, positions and exchanges *)
(* ================================================================== *)

Module Samples.

(** The scanner's configuration with both directions enabled and the
    thresholds of the script. *)
Definition bothSides : Scanner.Config := {|
  Scanner.MAX_ACTIVE_POSITIONS := 1;
  Scanner.SELL_RSI_THRESHOLD := 80;
  Scanner.BUY_RSI_THRESHOLD := 10;
  Scanner.SHORT := true;
  Scanner.LONG := true;
  Scanner.PRICE_CEILING := 1
|}.

(** A short position as the exchange reports it. *)
Definition dogeShort : Position := {|
  symbol := Some "DOGEUSDT";
  positionAmt := Some "-120";
  positionSide := Some "SHORT";
  entryPrice := Some "0.12";
  markPrice := Some "0.11";
  unRealizedProfit := Some "1.2";
  isolatedWallet := Some "5"
|}.

(** An exchange that reports this one position, a free balance of 50 USDT
    and a last price of 0.5. *)
Definition onePositionOpen : Scanner.Exchange := {|
  Scanner.futuresPositionRisk := Resolve (Positions [dogeShort]);
  Scanner.fetchBalance := Resolve (Some 50%float);
  Scanner.fetchTicker :=
    fun _ => Resolve {| last := Some 0.5%float; info_lastPrice := Some "0.5" |};
  Scanner.createOrder := fun _ _ _ _ => Resolve "order"
|}.

(** The same exchange when it refuses the request for the positions: the
    promise resolves to the body of the refusal. *)
Definition refused : Scanner.Exchange := {|
  Scanner.futuresPositionRisk :=
    Resolve (ErrorBody (-1021) "Timestamp for this request is outside of the recvWindow.");
  Scanner.fetchBalance := Scanner.fetchBalance onePositionOpen;
  Scanner.fetchTicker := Scanner.fetchTicker onePositionOpen;
  Scanner.createOrder := Scanner.createOrder onePositionOpen
|}.

(** A long position with 100 USDT of isolated margin and 3.5 USDT of
    unrealized profit. *)
Definition btcLong : Position := {|
  symbol := Some "BTCUSDT";
  positionAmt := Some "0.002";
  positionSide := Some "LONG";
  entryPrice := Some "60000";
  markPrice := Some "61750";
  unRealizedProfit := Some "3.5";
  isolatedWallet := Some "100"
|}.

(** The same position with half the margin: 50 USDT. *)
Definition halfMargin : Position := {|
  symbol := symbol btcLong;
  positionAmt := positionAmt btcLong;
  positionSide := positionSide btcLong;
  entryPrice := entryPrice btcLong;
  markPrice := markPrice btcLong;
  unRealizedProfit := unRealizedProfit btcLong;
  isolatedWallet := Some "50"
|}.

(** An exchange that answers every call; the free balance is 5 USDT. *)
Definition live : Manager.Exchange := {|
  Manager.fetchTicker := fun _ => Resolve {| last := Some 61750%float; info_lastPrice := Some "61750" |};
  Manager.futuresMarketBuy := fun _ _ _ => Resolve "bought";
  Manager.futuresMarketSell := fun _ _ _ => Resolve "sold";
  Manager.fetchBalance := Resolve (Some 5%float);
  Manager.fapiPrivateGetPositionSideDual := Resolve true;
  Manager.fetchPositions := fun _ => Resolve tt
|}.


End Samples.


(* ================================================================== *)
(** ** Facts about the order of JavaScript numbers *)
(* ================================================================== *)

Module NumberFacts.

(** Case analysis on the exponent and mantissa comparisons left in a goal
    once the classes and signs of the operands are known. *)
Ltac order_cases :=
  repeat match goal with
         | |- context [(?x ?= ?y)%Z] => destruct (Z.compare_spec x y)
         | |- context [PosDef.Pos.compare_cont Eq ?x ?y] =>
             change (PosDef.Pos.compare_cont Eq x y) with (Pos.compare x y);
             destruct (Pos.compare_spec x y)
         end.

Ltac order_finish :=
  order_cases; simpl; intros; subst; try reflexivity; try discriminate; lia.

Lemma SFleb_trans (a b c : spec_float) :
  SFleb a b = true -> SFleb b c = true -> SFleb a c = true.
Proof.
  unfold SFleb, SFcompare.
  destruct a as [[|]|[|]| |[|] ma ea], b as [[|]|[|]| |[|] mb eb],
           c as [[|]|[|]| |[|] mc ec];
    try reflexivity; try discriminate; order_finish.
Qed.

Lemma SFleb_SFltb_false (a b : spec_float) :
  SFleb a b = true -> SFltb b a = false.
Proof.
  unfold SFleb, SFltb, SFcompare.
  destruct a as [[|]|[|]| |[|] ma ea], b as [[|]|[|]| |[|] mb eb];
    try reflexivity; try discriminate; order_finish.
Qed.

Lemma SFltb_SFleb (a b : spec_float) : SFltb a b = true -> SFleb a b = true.
Proof.
  unfold SFltb, SFleb. destruct (SFcompare a b) as [[| |]|]; congruence.
Qed.

Lemma SFeqb_SFleb (a b : spec_float) : SFeqb a b = true -> SFleb a b = true.
Proof.
  unfold SFeqb, SFleb. destruct (SFcompare a b) as [[| |]|]; congruence.
Qed.

Lemma SFeqb_SFleb_sym (a b : spec_float) : SFeqb a b = true -> SFleb b a = true.
Proof.
  unfold SFeqb, SFleb, SFcompare.
  destruct a as [[|]|[|]| |[|] ma ea], b as [[|]|[|]| |[|] mb eb];
    try reflexivity; try discriminate; order_finish.
Qed.

(** [x <= y] and [y <= z] give [x <= z]; none of the three is [NaN]. *)
Lemma le_trans (x y z : number) :
  (x <= y)%js = true -> (y <= z)%js = true -> (x <= z)%js = true.
Proof. rewrite !FloatAxioms.leb_spec. apply SFleb_trans. Qed.

Lemma lt_le (x y : number) : (x < y)%js = true -> (x <= y)%js = true.
Proof. rewrite FloatAxioms.ltb_spec, FloatAxioms.leb_spec. apply SFltb_SFleb. Qed.

Lemma eq_le (x y : number) : (x === y)%js = true -> (x <= y)%js = true.
Proof. rewrite FloatAxioms.eqb_spec, FloatAxioms.leb_spec. apply SFeqb_SFleb. Qed.

Lemma eq_ge (x y : number) : (x === y)%js = true -> (x >= y)%js = true.
Proof. rewrite FloatAxioms.eqb_spec, FloatAxioms.leb_spec. apply SFeqb_SFleb_sym. Qed.

(** [x <= y] excludes [x > y]. *)
Lemma le_not_gt (x y : number) : (x <= y)%js = true -> (x > y)%js = false.
Proof. rewrite FloatAxioms.ltb_spec, FloatAxioms.leb_spec. apply SFleb_SFltb_false. Qed.

Lemma is_finite_class (x : number) : is_finite x = SFfinite (Prim2SF x).
Proof.
  unfold is_finite, is_nan, is_infinity.
  rewrite !FloatAxioms.eqb_spec, FloatAxioms.abs_spec.
  change (Prim2SF infinity) with (S754_infinity false).
  destruct (Prim2SF x) as [[|]|[|]| |[|] m e]; try reflexivity;
    unfold SFeqb, SFabs, SFcompare;
    rewrite Z.compare_refl;
    change (PosDef.Pos.compare_cont Eq m m) with (Pos.compare m m);
    rewrite Pos.compare_refl; reflexivity.
Qed.

(** A zero times a finite number is a zero, of either sign: it compares
    like [0]. *)
Lemma zero_times_le (m r p : number) :
  (m === 0)%js = true -> is_finite r = true ->
  (m * r <= p)%js = (0 <= p)%js.
Proof.
  rewrite is_finite_class, FloatAxioms.eqb_spec, !FloatAxioms.leb_spec, FloatAxioms.mul_spec.
  change (Prim2SF 0) with (S754_zero false).
  unfold SF64mul, SFmul.
  destruct (Prim2SF m) as [[|]|[|]| |[|] mm em]; try discriminate;
    destruct (Prim2SF r) as [[|]|[|]| |[|] mr er]; try discriminate;
    intros _ _; destruct (Prim2SF p) as [[|]|[|]| |[|] mp ep]; reflexivity.
Qed.

End NumberFacts.


(* ================================================================== *)
(** ** The entry decision of the scanner *)
(* ================================================================== *)

Module ScannerFacts.
Import Scanner NumberFacts Samples.

(** The scenario of the specification: RSI 85 under the ceiling. *)
Example short_scenario : evaluate sourceConfig 85 0.5 0 = OpenShort.
Proof. reflexivity. Qed.

(** The script itself never opens a long position: [LONG] is [false]. *)
Lemma source_never_long (rsi price : number) (n : nat) :
  evaluate sourceConfig rsi price n <> OpenLong.
Proof.
  unfold evaluate, entrySignal, sourceConfig; simpl.
  rewrite !andb_false_r.
  match goal with |- context [if ?b then OpenShort else _] => destruct b end;
    [destruct (maxPositionsReached _ n)|]; discriminate.
Qed.

(** The long branch of [main] is taken when the short one is not and
    [0 < rsi <= BUY_RSI_THRESHOLD] under the price ceiling. *)
Lemma entrySignal_long (c : Config) (rsi price : number) :
  ((rsi >= SELL_RSI_THRESHOLD c)%js && (price < PRICE_CEILING c)%js && SHORT c) = false ->
  (rsi <= BUY_RSI_THRESHOLD c)%js = true ->
  (rsi > 0)%js = true ->
  (price < PRICE_CEILING c)%js = true ->
  LONG c = true ->
  entrySignal c rsi price = OpenLong.
Proof.
  intros Hshort Hle Hpos Hprice Hlong.
  unfold entrySignal, TESTING_MODE. simpl negb.
  rewrite !andb_true_r, Hshort, Hle, Hpos, Hprice, Hlong.
  reflexivity.
Qed.

(** Below the position limit the request of [main] is the decision. *)
Lemma evaluate_below_limit (c : Config) (rsi price : number) (n : nat) :
  n < MAX_ACTIVE_POSITIONS c ->
  evaluate c rsi price n = entrySignal c rsi price.
Proof.
  intros Hn. unfold evaluate, maxPositionsReached.
  apply Nat.leb_gt in Hn. rewrite Hn.
  destruct (entrySignal c rsi price); reflexivity.
Qed.

(** No branch of [main] is taken at or above the price ceiling. *)
Lemma entrySignal_at_ceiling (c : Config) (rsi price : number) :
  (price >= PRICE_CEILING c)%js = true ->
  entrySignal c rsi price = NoAction.
Proof.
  intros Hprice. apply le_not_gt in Hprice.
  unfold entrySignal. rewrite Hprice, !andb_false_r. reflexivity.
Qed.

(** *** Effects: the orders the scanner places *)

(** [openPosition] places no order once the position limit is reached. *)
Lemma openPosition_at_limit `{Builtins} (c : Config) (ex : Exchange)
    (symbol0 side : string) (positionData : list Position) :
  futuresPositionRisk ex = Resolve (Positions positionData) ->
  MAX_ACTIVE_POSITIONS c <= List.length positionData ->
  openPosition c ex symbol0 side = ([Telegram MaxPositionsReached], Resolve None).
Proof.
  intros Hresp Hmax. unfold openPosition, limitReached, maxPositionsReached.
  apply Nat.leb_le in Hmax. rewrite Hresp.
  run_io. rewrite Hmax. reflexivity.
Qed.

(** The position limit holds back an array of [MAX_ACTIVE_POSITIONS]
    positions or more, and nothing else. *)
Lemma limitReached_false (c : Config) (positionData : PositionData) :
  limitReached c positionData = false
  <-> forall rows : list Position,
        positionData = Positions rows -> List.length rows < MAX_ACTIVE_POSITIONS c.
Proof.
  unfold limitReached, maxPositionsReached.
  destruct positionData as [rows|code msg].
  - rewrite Nat.leb_gt. split.
    + intros Hlt rows' [= <-]. exact Hlt.
    + intros Hrows. apply Hrows. reflexivity.
  - split; [intros _ rows; discriminate|reflexivity].
Qed.

(** Every order of [openPosition] is the one asked for, and is placed
    when the position limit did not hold it back. *)
Lemma openPosition_orders `{Builtins} (c : Config) (ex : Exchange)
    (symbol0 side : string) (ev : Event) :
  In ev (orders (trace (openPosition c ex symbol0 side))) ->
  exists positionData quantity positionSide0,
    futuresPositionRisk ex = Resolve positionData
    /\ limitReached c positionData = false
    /\ ev = CreateOrder symbol0 side quantity positionSide0.
Proof.
  unfold openPosition, getBalance, getMarketPrice.
  destruct (futuresPositionRisk ex) as [positionData|e] eqn:Hresp;
    [|run_io; intros []].
  destruct (limitReached c positionData) eqn:Hmax;
    [run_io; rewrite Hmax; run_io; intros []|].
  intros Hin. exists positionData.
  run_io. rewrite Hmax in Hin.
  destruct (fetchBalance ex) as [balance|e]; run_io; [|destruct Hin].
  match type of Hin with
  | context [if ?b then _ else _] => destruct b
  end; run_io; [destruct Hin|].
  destruct (fetchTicker ex symbol0) as [ticker|e]; run_io; [|destruct Hin].
  destruct (ToBoolean _); run_io; [|destruct Hin].
  destruct (createOrder ex symbol0 side _ _); run_io;
    destruct Hin as [<-|[]]; eauto.
Qed.

(** Soundness of [evaluate] for the scanner: an order placed while a symbol
    is processed has the side of the entry decision taken on the RSI, the
    price and the number of positions the exchange reported.  When the
    exchange answered with something else than an array there is no such
    number, and the side is the request of [main] as it stands. *)
Lemma tradeSymbol_orders `{Builtins} (c : Config) (check : Outcome PositionData)
    (ex : Exchange) (symbol0 : string) (rsi : number) (price : value) (ev : Event) :
  In ev (orders (trace (tradeSymbol c check ex symbol0 rsi price))) ->
  exists positionData side quantity positionSide0,
    futuresPositionRisk ex = Resolve positionData
    /\ match positionData with
       | Positions rows =>
           sideOf (evaluate c rsi (toNum price) (List.length rows)) = Some side
       | ErrorBody _ _ =>
           sideOf (entrySignal c rsi (toNum price)) = Some side
       end
    /\ ev = CreateOrder symbol0 side quantity positionSide0.
Proof.
  unfold tradeSymbol.
  destruct (alreadyOpenedFuturesPosition check symbol0); [intros []|].
  destruct (sideOf (entrySignal c rsi (toNum price))) as [side|] eqn:Hside;
    [|intros []].
  pose proof (openPosition_orders c ex symbol0 side ev) as Hopen.
  destruct (openPosition c ex symbol0 side) as [t [order|e]];
    run_io; rewrite ?app_nil_r; intros Hin;
    destruct (Hopen Hin) as (positionData & quantity & ps & Hresp & Hmax & ->);
    exists positionData, side, quantity, ps; repeat split; trivial;
    destruct positionData as [rows|code msg]; trivial;
    unfold evaluate; simpl in Hmax; rewrite Hmax;
    destruct (entrySignal c rsi (toNum price)); trivial; discriminate.
Qed.

(** Completeness of [evaluate] for the scanner: when the symbol has no open
    position, the balance reaches [POSITION_USDT] and the price is
    available, the order of the entry decision is placed.  Its
    [positionSide] is ['SHORT'] for both sides: [openPosition] compares
    [side] with ['Buy'], and [main] passes ['buy'] and ['sell']. *)
Lemma tradeSymbol_places_order `{Builtins} (c : Config)
    (check : Outcome PositionData) (ex : Exchange) (symbol0 : string)
    (rsi : number) (price : value) (positionData : list Position)
    (side : string) (balance : number) (marketPrice : value) :
  alreadyOpenedFuturesPosition check symbol0 = false ->
  futuresPositionRisk ex = Resolve (Positions positionData) ->
  sideOf (evaluate c rsi (toNum price) (List.length positionData)) = Some side ->
  outcome (getBalance ex) = Resolve balance ->
  (balance < POSITION_USDT)%js = false ->
  outcome (getMarketPrice ex symbol0) = Resolve marketPrice ->
  orders (trace (tradeSymbol c check ex symbol0 rsi price)) =
    [CreateOrder symbol0 side (AMOUNT_PER_POSITION / toNum marketPrice)%js "SHORT"].
Proof.
  intros Hcheck Hresp Hside Hbalance Hgate Hprice.
  unfold tradeSymbol. rewrite Hcheck.
  unfold evaluate in Hside.
  destruct (maxPositionsReached c (List.length positionData)) eqn:Hmax;
    [destruct (entrySignal c rsi (toNum price)); discriminate|].
  assert (sideOf (entrySignal c rsi (toNum price)) = Some side) as ->
      by (destruct (entrySignal c rsi (toNum price)); trivial).
  assert ((side =? "Buy") = false) as Hcase
      by (destruct (entrySignal c rsi (toNum price)); simpl in Hside;
          inversion Hside; reflexivity).
  unfold openPosition. rewrite Hresp.
  destruct (getBalance ex) as [tb [b|e]] eqn:Hb; [|discriminate].
  destruct (getMarketPrice ex symbol0) as [tp [p|e]] eqn:Hp; [|discriminate].
  assert (tb = []) as ->.
  { unfold getBalance in Hb. destruct (fetchBalance ex); run_io; congruence. }
  assert (tp = []) as ->.
  { unfold getMarketPrice in Hp. destruct (fetchTicker ex symbol0); run_io;
      [destruct (ToBoolean _)|]; run_io; congruence. }
  simpl in Hbalance, Hprice. injection Hbalance as ->. injection Hprice as ->.
  unfold limitReached. run_io. rewrite Hmax, Hgate, Hcase.
  destruct (createOrder ex symbol0 side _ _); reflexivity.
Qed.

(** *** The entry rules *)

(** Claim C1, as the script has it.  When the RSI equals the buy threshold
    exactly, with [0 < rsi], the price under the ceiling, the long side
    enabled, fewer positions than the limit and the short rule not
    satisfied, the decision is [OpenLong]: the long rule of [main] is
    [rsi <= BUY_RSI_THRESHOLD], not a strict comparison. *)
Theorem evaluate_at_buy_threshold (c : Config) (rsi price : number) (n : nat) :
  (rsi === BUY_RSI_THRESHOLD c)%js = true ->
  (rsi > 0)%js = true ->
  (price < PRICE_CEILING c)%js = true ->
  LONG c = true ->
  n < MAX_ACTIVE_POSITIONS c ->
  ((rsi >= SELL_RSI_THRESHOLD c)%js && (price < PRICE_CEILING c)%js && SHORT c) = false ->
  evaluate c rsi price n = OpenLong.
Proof.
  intros Heq Hpos Hprice Hlong Hn Hshort.
  rewrite evaluate_below_limit by exact Hn.
  apply entrySignal_long; auto using eq_le.
Qed.

Lemma evaluate_at_buy_threshold_witness :
  (10 === BUY_RSI_THRESHOLD bothSides)%js = true
  /\ (10 > 0)%js = true
  /\ (0.5 < PRICE_CEILING bothSides)%js = true
  /\ LONG bothSides = true
  /\ 0 < MAX_ACTIVE_POSITIONS bothSides
  /\ ((10 >= SELL_RSI_THRESHOLD bothSides)%js
      && (0.5 < PRICE_CEILING bothSides)%js && SHORT bothSides) = false
  /\ evaluate bothSides 10 0.5 0 = OpenLong.
Proof.
  repeat (split; [solve [reflexivity | simpl; lia]|]).
  apply (evaluate_at_buy_threshold bothSides 10 0.5 0);
    solve [reflexivity | simpl; lia].
Defined.

(** Claim C1 as stated fails: at [rsi = buyThreshold = 10], price [0.5]
    under the ceiling [1], long side enabled, no open position and the
    short rule not satisfied, the decision is [OpenLong], not [NoAction]. *)
Lemma evaluate_at_buy_threshold_not_NoAction :
  (10 === BUY_RSI_THRESHOLD bothSides)%js = true
  /\ (10 > 0)%js = true
  /\ (0.5 < PRICE_CEILING bothSides)%js = true
  /\ LONG bothSides = true
  /\ 0 < MAX_ACTIVE_POSITIONS bothSides
  /\ ((10 >= SELL_RSI_THRESHOLD bothSides)%js
      && (0.5 < PRICE_CEILING bothSides)%js && SHORT bothSides) = false
  /\ evaluate bothSides 10 0.5 0 = OpenLong
  /\ evaluate bothSides 10 0.5 0 <> NoAction.
Proof.
  repeat split; try reflexivity; try (simpl; lia).
  vm_compute. discriminate.
Qed.

(** Claim C3.  Once the number of active positions has reached the limit,
    the decision is [NoAction] whatever the RSI, the price and the flags,
    and [openPosition] places no order. *)
Theorem max_positions_dominates `{Builtins} (c : Config) (n : nat) :
  MAX_ACTIVE_POSITIONS c <= n ->
  (forall rsi price : number, evaluate c rsi price n = NoAction)
  /\ (forall (ex : Exchange) (symbol0 side : string) (positionData : list Position),
        futuresPositionRisk ex = Resolve (Positions positionData) ->
        List.length positionData = n ->
        orders (trace (openPosition c ex symbol0 side)) = []
        /\ outcome (openPosition c ex symbol0 side) = Resolve None).
Proof.
  intros Hmax. split.
  - intros rsi price. unfold evaluate, maxPositionsReached.
    apply Nat.leb_le in Hmax. rewrite Hmax.
    destruct (entrySignal c rsi price); reflexivity.
  - intros ex symbol0 side positionData Hresp Hlen. subst n.
    rewrite (openPosition_at_limit c ex symbol0 side positionData Hresp Hmax).
    split; reflexivity.
Qed.

Lemma max_positions_dominates_witness :
  MAX_ACTIVE_POSITIONS sourceConfig <= 1
  /\ evaluate sourceConfig 85 0.5 1 = NoAction
  /\ orders (trace (openPosition (H := decimalBuiltins) sourceConfig onePositionOpen
                                  "DOGEUSDT" "sell")) = [].
Proof.
  pose proof (max_positions_dominates (H := decimalBuiltins) sourceConfig 1
                (le_n 1)) as [Hdecision Horders].
  split; [apply le_n|]. split.
  - apply Hdecision.
  - apply (Horders onePositionOpen "DOGEUSDT" "sell" [dogeShort]); reflexivity.
Defined.

(** Claim C4.  With the RSI strictly between 0 and the buy threshold, the
    price under the ceiling, the long side enabled, fewer positions than
    the limit and the short rule not satisfied, the decision is
    [OpenLong]. *)
Theorem evaluate_opens_long (c : Config) (rsi price : number) (n : nat) :
  (rsi > 0)%js = true ->
  (rsi < BUY_RSI_THRESHOLD c)%js = true ->
  (price < PRICE_CEILING c)%js = true ->
  LONG c = true ->
  n < MAX_ACTIVE_POSITIONS c ->
  ((rsi >= SELL_RSI_THRESHOLD c)%js && (price < PRICE_CEILING c)%js && SHORT c) = false ->
  evaluate c rsi price n = OpenLong.
Proof.
  intros Hpos Hlt Hprice Hlong Hn Hshort.
  rewrite evaluate_below_limit by exact Hn.
  apply entrySignal_long; auto using lt_le.
Qed.

Lemma evaluate_opens_long_witness :
  (7.5 > 0)%js = true
  /\ (7.5 < BUY_RSI_THRESHOLD bothSides)%js = true
  /\ (0.5 < PRICE_CEILING bothSides)%js = true
  /\ LONG bothSides = true
  /\ 0 < MAX_ACTIVE_POSITIONS bothSides
  /\ ((7.5 >= SELL_RSI_THRESHOLD bothSides)%js
      && (0.5 < PRICE_CEILING bothSides)%js && SHORT bothSides) = false
  /\ evaluate bothSides 7.5 0.5 0 = OpenLong.
Proof.
  repeat (split; [solve [reflexivity | simpl; lia]|]).
  apply (evaluate_opens_long bothSides 7.5 0.5 0);
    solve [reflexivity | simpl; lia].
Defined.

(** Claim C5.  With the RSI at or above the sell threshold and the price at
    or above the ceiling, the decision is [NoAction]: no short position is
    opened at the ceiling. *)
Theorem evaluate_at_ceiling (c : Config) (rsi price : number) (n : nat) :
  (rsi >= SELL_RSI_THRESHOLD c)%js = true ->
  (price >= PRICE_CEILING c)%js = true ->
  evaluate c rsi price n = NoAction.
Proof.
  intros _ Hprice. unfold evaluate.
  rewrite (entrySignal_at_ceiling c rsi price Hprice). reflexivity.
Qed.

Lemma evaluate_at_ceiling_witness :
  (85 >= SELL_RSI_THRESHOLD sourceConfig)%js = true
  /\ (1 >= PRICE_CEILING sourceConfig)%js = true
  /\ evaluate sourceConfig 85 1 0 = NoAction.
Proof.
  repeat (split; [reflexivity|]).
  apply (evaluate_at_ceiling sourceConfig 85 1 0); reflexivity.
Defined.

(** Claim C8.  With an RSI of 0, and with any RSI at or below 0, the
    decision is never [OpenLong], whatever the price, the ceiling, the
    flags and the number of positions. *)
Theorem evaluate_nonpositive_rsi (c : Config) (rsi price : number) (n : nat) :
  (rsi <= 0)%js = true ->
  evaluate c rsi price n <> OpenLong.
Proof.
  intros Hrsi. apply le_not_gt in Hrsi.
  unfold evaluate, entrySignal. rewrite Hrsi, andb_false_r. simpl.
  match goal with |- context [if ?b then OpenShort else _] => destruct b end;
    [destruct (maxPositionsReached c n)|]; discriminate.
Qed.

Lemma evaluate_nonpositive_rsi_witness :
  (0 <= 0)%js = true /\ evaluate bothSides 0 0.5 0 <> OpenLong.
Proof.
  split; [reflexivity|].
  apply (evaluate_nonpositive_rsi bothSides 0 0.5 0). reflexivity.
Defined.

End ScannerFacts.


(* ================================================================== *)
(** ** The decisions of the position manager *)
(* ================================================================== *)

Module ManagerFacts.
Import Manager NumberFacts Samples.

(** *** The funding direction *)

Lemma equals_eq (v : field) (lit : string) : equals v lit = true <-> v = Some lit.
Proof.
  destruct v as [s|]; simpl.
  - rewrite String.eqb_eq. split; congruence.
  - split; discriminate.
Qed.

(** Claim C6.  The funding rate is favourable exactly for a LONG position
    with a negative rate and for a SHORT position with a positive rate;
    LONG at a rate of -0.01 is favourable, and a rate of zero is
    favourable for no side. *)
Theorem isFundingFavorable_spec :
  (forall (side : field) (fundingRate : number),
      isFundingFavorable side fundingRate = true <->
      (side = Some "LONG" /\ (fundingRate < 0)%js = true)
      \/ (side = Some "SHORT" /\ (fundingRate > 0)%js = true))
  /\ isFundingFavorable (Some "LONG") (-0.01) = true
  /\ (forall (side : field) (fundingRate : number),
        (fundingRate === 0)%js = true -> isFundingFavorable side fundingRate = false)
  /\ isFundingFavorable (Some "LONG") 0 = false
  /\ isFundingFavorable (Some "SHORT") 0 = false.
Proof.
  split; [|split; [|split; [|split]]]; try reflexivity.
  - intros side fundingRate. unfold isFundingFavorable.
    rewrite orb_true_iff, !andb_true_iff, !equals_eq. reflexivity.
  - intros side fundingRate Hzero. unfold isFundingFavorable.
    rewrite (le_not_gt _ _ (eq_le _ _ Hzero)).
    rewrite (le_not_gt _ _ (eq_ge _ _ Hzero)).
    rewrite !andb_false_r. reflexivity.
Qed.

(** *** The exit rule *)

(** Claim C2.  The exit rule closes the position exactly when the
    unrealized profit is at least the isolated margin times the profit
    ratio, and takes no action otherwise: 3.5 on a margin of 100 at 0.03
    closes, 2.9 does not, and on a zero margin every non-negative profit,
    0 included, closes (for every finite ratio, the 0.03 of the script
    among them).  The last part states the rule on a position object, as
    the loop applies it. *)
Theorem exitRule_threshold :
  (forall profitRatio isolatedMargin unrealizedProfit : number,
      exitRule profitRatio isolatedMargin unrealizedProfit = ClosePosition <->
      (unrealizedProfit >= isolatedMargin * profitRatio)%js = true)
  /\ (forall profitRatio isolatedMargin unrealizedProfit : number,
        exitRule profitRatio isolatedMargin unrealizedProfit = NoAction <->
        (unrealizedProfit >= isolatedMargin * profitRatio)%js = false)
  /\ exitRule 0.03 100 3.5 = ClosePosition
  /\ exitRule 0.03 100 2.9 = NoAction
  /\ (forall profitRatio isolatedMargin unrealizedProfit : number,
        (isolatedMargin === 0)%js = true ->
        is_finite profitRatio = true ->
        (unrealizedProfit >= 0)%js = true ->
        exitRule profitRatio isolatedMargin unrealizedProfit = ClosePosition)
  /\ exitRule (profit sourceConfig) 0 0 = ClosePosition
  /\ (forall (B : Builtins) (c : Config) (position : Position),
        evaluate c position = ClosePosition <->
        (NumberOf (unRealizedProfit position)
         >= NumberOf (isolatedWallet position) * profit c)%js = true).
Proof.
  split; [|split; [|split; [|split; [|split; [|split]]]]]; try reflexivity.
  - intros profitRatio isolatedMargin unrealizedProfit. unfold exitRule.
    destruct (_ <=? _)%float; split; congruence.
  - intros profitRatio isolatedMargin unrealizedProfit. unfold exitRule.
    destruct (_ <=? _)%float; split; congruence.
  - intros profitRatio isolatedMargin unrealizedProfit Hzero Hfinite Hprofit.
    unfold exitRule.
    rewrite (zero_times_le _ _ _ Hzero Hfinite), Hprofit. reflexivity.
  - intros B c position. unfold evaluate, exitRule.
    destruct (_ <=? _)%float; split; congruence.
Qed.

Lemma exitRule_threshold_witness :
  (0 === 0)%js = true
  /\ is_finite (profit sourceConfig) = true
  /\ (1.5 >= 0)%js = true
  /\ exitRule (profit sourceConfig) 0 1.5 = ClosePosition.
Proof.
  repeat (split; [reflexivity|]).
  apply exitRule_threshold; reflexivity.
Defined.

(** The scenarios on a position object, whose figures the script converts
    with [Number]. *)
Example evaluate_scenarios :
  evaluate (H := decimalBuiltins) sourceConfig btcLong = ClosePosition
  /\ evaluate (H := decimalBuiltins) sourceConfig
       {| symbol := symbol btcLong; positionAmt := positionAmt btcLong;
          positionSide := positionSide btcLong; entryPrice := entryPrice btcLong;
          markPrice := markPrice btcLong; unRealizedProfit := Some "2.9";
          isolatedWallet := isolatedWallet btcLong |} = NoAction.
Proof. split; reflexivity. Qed.

(** Claim C7.  The exit rule is monotonic in the unrealized profit: with
    the margin and the ratio fixed, if it closes at a profit it closes at
    every larger profit. *)
Theorem exitRule_monotonic (profitRatio isolatedMargin p1 p2 : number) :
  (p1 <= p2)%js = true ->
  exitRule profitRatio isolatedMargin p1 = ClosePosition ->
  exitRule profitRatio isolatedMargin p2 = ClosePosition.
Proof.
  unfold exitRule. intros Hle.
  destruct (p1 >= isolatedMargin * profitRatio)%js eqn:Hclose; [|discriminate].
  intros _. rewrite (le_trans _ _ _ Hclose Hle). reflexivity.
Qed.

Lemma exitRule_monotonic_witness :
  (3.5 <= 4)%js = true
  /\ exitRule 0.03 100 3.5 = ClosePosition
  /\ exitRule 0.03 100 4 = ClosePosition.
Proof.
  repeat (split; [reflexivity|]).
  apply (exitRule_monotonic 0.03 100 3.5 4); reflexivity.
Defined.

(** *** Closing a position *)

(** Fetching the price emits no event. *)
Lemma getMarketPrice_trace (ex : Exchange) (symbol0 : string) :
  trace (getMarketPrice ex symbol0) = [].
Proof.
  unfold getMarketPrice.
  destruct (fetchTicker ex symbol0) as [ticker|e]; run_io; [|reflexivity].
  destruct (ToBoolean _); reflexivity.
Qed.

(** Once the position is accepted and the price fetched, [closePosition]
    places one order; its side is chosen by comparing [positionSide] with
    ['LONG'] alone. *)
Lemma closePosition_priced `{Builtins} (ex : Exchange) (position : Position)
    (price : value) :
  let symbol0 := text (symbol position) in
  let side := text (positionSide position) in
  let quantity := Math_abs (parseFloatOf (positionAmt position)) in
  truthy (symbol position) = true ->
  truthy (positionAmt position) = true ->
  truthy (positionSide position) = true ->
  (quantity === 0)%js = false ->
  outcome (getMarketPrice ex symbol0) = Resolve price ->
  orders (trace (closePosition ex position)) =
    [if side =? "LONG"
     then FuturesMarketSell symbol0 quantity side
     else FuturesMarketBuy symbol0 quantity side].
Proof.
  intros symbol0 side quantity Hsymbol Hamt Hside Hquantity Hprice.
  unfold closePosition.
  rewrite Hsymbol, Hamt, Hside. simpl negb. simpl orb.
  fold symbol0 side quantity. rewrite Hquantity.
  pose proof (getMarketPrice_trace ex symbol0) as Htrace.
  destruct (getMarketPrice ex symbol0) as [t [price'|e]]; simpl in Htrace; subst t;
    [|discriminate].
  destruct (side =? "LONG"); simpl String.eqb; cbv iota.
  - destruct (futuresMarketSell ex symbol0 quantity side); reflexivity.
  - destruct (futuresMarketBuy ex symbol0 quantity side); reflexivity.
Qed.



(** The comparison with ['LONG'] alone decides the side: a position whose
    [positionSide] is anything else, the ['BOTH'] of one-way mode among
    them, is answered with a BUY, whatever the sign of its amount. *)
Lemma closePosition_other_side `{Builtins} (ex : Exchange) (position : Position)
    (price : value) :
  let symbol0 := text (symbol position) in
  let side := text (positionSide position) in
  let quantity := Math_abs (parseFloatOf (positionAmt position)) in
  truthy (symbol position) = true ->
  truthy (positionAmt position) = true ->
  truthy (positionSide position) = true ->
  (quantity === 0)%js = false ->
  outcome (getMarketPrice ex symbol0) = Resolve price ->
  positionSide position <> Some "LONG" ->
  orders (trace (closePosition ex position)) = [FuturesMarketBuy symbol0 quantity side].
Proof.
  intros symbol0 side quantity Hsymbol Hamt Hside Hquantity Hprice Hother.
  pose proof (closePosition_priced ex position price
                Hsymbol Hamt Hside Hquantity Hprice) as Horders.
  cbv zeta in Horders. fold symbol0 side quantity in Horders.
  destruct (side =? "LONG") eqn:Hlong; [|exact Horders].
  exfalso. apply Hother. apply String.eqb_eq in Hlong.
  unfold side in Hlong. destruct (positionSide position) as [s|]; [|discriminate].
  simpl in Hlong. congruence.
Qed.


(** The loop closes a position exactly when the exit rule says so (no
    symbol is excluded in the script). *)
Lemma managePosition_closes `{Builtins} (ex : Exchange) (position : Position) :
  trace (managePosition sourceConfig ex position) =
    match evaluate sourceConfig position with
    | ClosePosition => trace (closePosition ex position)
    | NoAction => []
    end.
Proof.
  unfold managePosition. simpl existsb.
  destruct (evaluate sourceConfig position); [|reflexivity].
  destruct (closePosition ex position) as [t [order|e]]; run_io;
    rewrite ?app_nil_r; reflexivity.
Qed.

(** *** Sizing a margin top-up *)

Lemma getBalance_trace (ex : Exchange) : trace (getBalance ex) = [].
Proof.
  unfold getBalance. destruct (fetchBalance ex) as [balance|e]; reflexivity.
Qed.

(** Claim C9.  The amount [addMarginToPosition] proposes is exactly the
    isolated margin times the support ratio.  It is proposed whenever the
    free balance is at least that product, the balance that equals it
    included (the position being valid and the two requests that follow
    answered), and only when the balance is not below it: for every
    balance strictly below the product the function raises an error (the
    insufficient-balance error once the position is valid) and proposes
    nothing, no smaller amount either. *)
Theorem addMargin_sizing `{Builtins} (c : Config) (ex : Exchange) (position : Position) :
  let amount := (NumberOf (isolatedWallet position) * supportPerPosition c)%js in
  amountForSupport c position = amount
  /\ (forall (balance : number) (isHedgeMode : bool),
        truthy (symbol position) = true ->
        equals (isolatedWallet position) "0" = false ->
        outcome (getBalance ex) = Resolve balance ->
        (balance >= amount)%js = true ->
        fapiPrivateGetPositionSideDual ex = Resolve isHedgeMode ->
        fetchPositions ex (text (symbol position)) = Resolve tt ->
        trace (addMarginToPosition c ex (Some position)) =
          [Telegram (MarginAdded amount (text (symbol position))
                                 (positionSide position))]
        /\ outcome (addMarginToPosition_try c ex (Some position)) = Resolve tt)
  /\ (forall (proposed : number) (symbol0 : string) (side : field),
        In (Telegram (MarginAdded proposed symbol0 side))
           (trace (addMarginToPosition c ex (Some position))) ->
        proposed = amount
        /\ exists balance : number,
            outcome (getBalance ex) = Resolve balance /\ (balance < amount)%js = false)
  /\ (forall balance : number,
        outcome (getBalance ex) = Resolve balance ->
        (balance < amount)%js = true ->
        (exists e : Error,
            outcome (addMarginToPosition_try c ex (Some position)) = Throw e
            /\ (truthy (symbol position) = true ->
                equals (isolatedWallet position) "0" = false ->
                e = InsufficientBalance balance amount))
        /\ trace (addMarginToPosition c ex (Some position)) = []).
Proof.
  intros amount.
  pose proof (getBalance_trace ex) as Htrace.
  split; [reflexivity|]. split.
  { intros balance isHedgeMode Hsymbol Hisolated Hbalance Hgate Hmode Hupdated.
    unfold addMarginToPosition, addMarginToPosition_try, amountForSupport.
    fold amount. rewrite Hsymbol, Hisolated. simpl negb. cbv iota.
    destruct (getBalance ex) as [t [usdtBalance|e]]; simpl in Htrace, Hbalance;
      subst t; [injection Hbalance as ->|discriminate].
    apply le_not_gt in Hgate.
    run_io. rewrite Hgate, Hmode. run_io. rewrite Hupdated.
    split; reflexivity. }
  unfold addMarginToPosition, addMarginToPosition_try, amountForSupport.
  fold amount.
  destruct (truthy (symbol position));
    [|split; [intros ? ? ? []|intros; split; [eexists; split; [reflexivity|discriminate]|reflexivity]]].
  destruct (equals (isolatedWallet position) "0");
    [split; [intros ? ? ? []|intros; split; [eexists; split; [reflexivity|discriminate]|reflexivity]]|].
  simpl negb. cbv iota.
  destruct (getBalance ex) as [t [usdtBalance|e]]; simpl in Htrace; subst t;
    [|split; [intros ? ? ? []|intros ? [=]]].
  run_io. destruct (usdtBalance < amount)%js eqn:Hgate; run_io.
  - split; [intros ? ? ? []|].
    intros balance [= <-] _. split; [|reflexivity].
    eexists; split; [reflexivity|]. reflexivity.
  - split; [|intros balance [= <-]; congruence].
    intros proposed symbol0 side Hin.
    destruct (fapiPrivateGetPositionSideDual ex); run_io; [|destruct Hin].
    destruct (fetchPositions ex _); run_io; [|destruct Hin].
    destruct Hin as [[= <- _ _]|[]]. eauto.
Qed.

(** With 5 USDT free: a margin of 100 asks for 10 and is refused; a margin
    of 50 asks for exactly 5, and 5 is proposed. *)
Lemma addMargin_sizing_witness :
  outcome (getBalance live) = Resolve 5%float
  /\ (5 < NumberOf (H := decimalBuiltins) (isolatedWallet btcLong)
          * supportPerPosition sourceConfig)%js = true
  /\ trace (addMarginToPosition (H := decimalBuiltins) sourceConfig live (Some btcLong)) = []
  /\ (5 >= NumberOf (H := decimalBuiltins) (isolatedWallet halfMargin)
           * supportPerPosition sourceConfig)%js = true
  /\ (5 === NumberOf (H := decimalBuiltins) (isolatedWallet halfMargin)
            * supportPerPosition sourceConfig)%js = true
  /\ trace (addMarginToPosition (H := decimalBuiltins) sourceConfig live (Some halfMargin))
     = [Telegram (MarginAdded 5 "BTCUSDT" (Some "LONG"))].
Proof.
  do 2 (split; [reflexivity|]).
  pose proof (addMargin_sizing (H := decimalBuiltins) sourceConfig live btcLong)
    as (_ & _ & _ & Hbelow).
  split; [exact (proj2 (Hbelow 5%float eq_refl eq_refl))|].
  do 2 (split; [reflexivity|]).
  pose proof (addMargin_sizing (H := decimalBuiltins) sourceConfig live halfMargin)
    as (_ & Henough & _).
  exact (proj1 (Henough 5%float true eq_refl eq_refl eq_refl eq_refl eq_refl eq_refl)).
Defined.

End ManagerFacts.


(* ================================================================== *)
(** ** Symbols, messages and timestamps *)
(* ================================================================== *)

Module TextFacts.
Import Text.

Lemma append_nil_r (s : string) : s ++ "" = s.
Proof. induction s as [|c s IH]; simpl; congruence. Qed.

Lemma append_assoc (a b c : string) : (a ++ b) ++ c = a ++ b ++ c.
Proof. induction a as [|x a IH]; simpl; congruence. Qed.

Lemma length_append (a b : string) :
  String.length (a ++ b) = String.length a + String.length b.
Proof. induction a as [|x a IH]; simpl; congruence. Qed.

Lemma prefix_nil (s : string) : String.prefix "" s = true.
Proof. destruct s; reflexivity. Qed.

Lemma prefix_char (a c : ascii) (s : string) :
  String.prefix (String a "") (String c s) = if ascii_dec a c then true else false.
Proof. cbn [String.prefix]. destruct (ascii_dec a c); [apply prefix_nil|reflexivity]. Qed.

(** Whether [p] is a prefix only depends on the first [length p]
    characters. *)
Lemma prefix_append (p x y z : string) :
  String.length p <= String.length x ->
  String.prefix p (x ++ y) = String.prefix p (x ++ z).
Proof.
  revert x. induction p as [|a p IH]; intros x Hlen.
  - rewrite !prefix_nil. reflexivity.
  - destruct x as [|b x]; simpl in *; [lia|].
    destruct (ascii_dec a b); [apply IH; lia|reflexivity].
Qed.

Lemma prefix_self_append (p b : string) : String.prefix p (p ++ b) = true.
Proof.
  induction p as [|a p IH]; simpl; [apply prefix_nil|].
  destruct (ascii_dec a a); [exact IH|congruence].
Qed.

Lemma includes_prefix (s needle : string) :
  String.prefix needle s = true -> includes s needle = true.
Proof. intros Hprefix. destruct s; cbn [includes]; rewrite Hprefix; reflexivity. Qed.

Lemma includes_middle (a p b : string) : includes (a ++ p ++ b) p = true.
Proof.
  induction a as [|c a IH]; simpl.
  - apply includes_prefix, prefix_self_append.
  - rewrite IH. apply orb_true_r.
Qed.

Lemma skip_append (p b : string) : skip (String.length p) (p ++ b) = b.
Proof. induction p as [|a p IH]; simpl; [destruct b; reflexivity|exact IH]. Qed.

(** Once [/USDT] stands for the first [USDT], the symbol has a slash. *)
Lemma replace_has_slash (s : string) :
  includes s "USDT" = true -> includes (replace s "USDT" "/USDT") "/" = true.
Proof.
  induction s as [|c s IH]; [discriminate|].
  intros Hin. cbn [replace].
  destruct (String.prefix "USDT" (String c s)) eqn:Hprefix; [reflexivity|].
  cbn [includes] in Hin. rewrite Hprefix in Hin. simpl in Hin.
  cbn [includes]. rewrite (IH Hin). apply orb_true_r.
Qed.

Lemma replace_at_start (p r b : string) : replace (p ++ b) p r = r ++ b.
Proof.
  assert (forall s, replace s p r =
            if String.prefix p s then r ++ skip (String.length p) s
            else match s with
                 | String c rest => String c (replace rest p r)
                 | EmptyString => EmptyString
                 end) as Hunfold by (intros []; reflexivity).
  rewrite Hunfold, prefix_self_append, skip_append. reflexivity.
Qed.

(** The first occurrence of the pattern is the one replaced. *)
Lemma replace_first (a b : string) :
  includes (a ++ "USD") "USDT" = false ->
  replace (a ++ "USDT" ++ b) "USDT" "/USDT" = a ++ "/USDT" ++ b.
Proof.
  induction a as [|c a IH]; intros Hfirst;
    [exact (replace_at_start "USDT" "/USDT" b)|].
  cbn [includes] in Hfirst. apply orb_false_elim in Hfirst as [Hhere Hlater].
  change (String c a ++ "USDT" ++ b) with (String c (a ++ "USDT" ++ b)).
  cbn [replace].
  assert (String.prefix "USDT" (String c (a ++ "USDT" ++ b)) = false) as ->.
  { pose proof (prefix_append "USDT" (String c a ++ "USD") ("T" ++ b) "") as Hext.
    rewrite append_assoc, append_nil_r in Hext.
    etransitivity; [|exact Hhere].
    apply Hext. rewrite length_append. simpl. lia. }
  change (String c (replace (a ++ "USDT" ++ b) "USDT" "/USDT")
          = String c (a ++ "/USDT" ++ b)).
  f_equal. exact (IH Hlater).
Qed.

(** Property X1.  [normalizeSymbol] is idempotent: a normalized symbol is left as it
    is. *)
Theorem normalizeSymbol_idempotent (symbol0 : string) :
  normalizeSymbol (normalizeSymbol symbol0) = normalizeSymbol symbol0.
Proof.
  unfold normalizeSymbol at 2 3.
  destruct (includes symbol0 "USDT") eqn:Hquote;
    destruct (includes symbol0 "/") eqn:Hslash; simpl;
    unfold normalizeSymbol;
    rewrite ?Hquote, ?Hslash, ?(replace_has_slash symbol0 Hquote), ?andb_false_r;
    reflexivity.
Qed.

(** Property X2.  [normalizeSymbol] puts one slash before the first [USDT] of a symbol
    without slash, and changes nothing else. *)
Theorem normalizeSymbol_inserts_slash (base rest : string) :
  includes (base ++ "USD") "USDT" = false ->
  includes (base ++ "USDT" ++ rest) "/" = false ->
  normalizeSymbol (base ++ "USDT" ++ rest) = base ++ "/USDT" ++ rest.
Proof.
  intros Hfirst Hslash. unfold normalizeSymbol.
  rewrite includes_middle, Hslash. simpl. apply replace_first, Hfirst.
Qed.

Lemma normalizeSymbol_inserts_slash_witness :
  includes ("BTC" ++ "USD") "USDT" = false
  /\ includes ("BTC" ++ "USDT" ++ "") "/" = false
  /\ normalizeSymbol "BTCUSDT" = "BTC/USDT".
Proof.
  repeat (split; [reflexivity|]).
  apply (normalizeSymbol_inserts_slash "BTC" ""); reflexivity.
Defined.

(** *** The text sent to Telegram *)

Lemma replaceCommas_length (message : string) :
  String.length (replaceCommas message) = String.length message.
Proof. induction message as [|c s IH]; simpl; congruence. Qed.

Lemma replaceCommas_no_comma (message : string) :
  includes (replaceCommas message) "," = false.
Proof.
  induction message as [|c s IH]; [reflexivity|].
  cbn [replaceCommas includes]. rewrite IH, orb_false_r, prefix_char.
  destruct (ascii_dec "," (if Ascii.eqb c "," then newline else c)) as [E|];
    [|reflexivity].
  destruct (Ascii.eqb_spec c ","); [cbv in E; discriminate E|congruence].
Qed.

Lemma replaceCommas_get (message : string) (i : nat) :
  String.get i (replaceCommas message) =
    option_map (fun c => if Ascii.eqb c "," then newline else c)
               (String.get i message).
Proof.
  revert i. induction message as [|c s IH]; intros [|i]; simpl; auto.
Qed.

(** Property X3.  The text handed to the bot is the message with a line break for every
    comma, character by character, followed by the signature line: it has
    no comma left before the signature. *)
Theorem finalMessage_lines (message : string) :
  exists body : string,
    finalMessage message = body ++ TELEGRAM_MESSAGE_SUFFIX
    /\ String.length body = String.length message
    /\ includes body "," = false
    /\ forall i : nat,
        String.get i body =
          option_map (fun c => if Ascii.eqb c "," then newline else c)
                     (String.get i message).
Proof.
  exists (replaceCommas message). split; [reflexivity|].
  auto using replaceCommas_length, replaceCommas_no_comma, replaceCommas_get.
Qed.

End TextFacts.


(* ================================================================== *)
(** ** More facts about numbers and effects *)
(* ================================================================== *)

Module NaNFacts.

Lemma is_nan_class (x : number) : is_nan x = SFnan (Prim2SF x).
Proof.
  unfold is_nan. rewrite FloatAxioms.eqb_spec.
  destruct (Prim2SF x) as [[|]|[|]| |[|] m e]; try reflexivity;
    unfold SFeqb, SFcompare;
    rewrite Z.compare_refl;
    change (PosDef.Pos.compare_cont Eq m m) with (Pos.compare m m);
    rewrite Pos.compare_refl; reflexivity.
Qed.

(** Two numbers that are not [NaN] are comparable: [x < y] or [x >= y]. *)
Lemma not_lt_ge (x y : number) :
  is_nan x = false -> is_nan y = false ->
  (x < y)%js = false -> (x >= y)%js = true.
Proof.
  rewrite !is_nan_class, FloatAxioms.ltb_spec, FloatAxioms.leb_spec.
  unfold SFltb, SFleb, SFcompare.
  destruct (Prim2SF x) as [[|]|[|]| |[|] mx ex],
           (Prim2SF y) as [[|]|[|]| |[|] my ey];
    try reflexivity; try discriminate; intros _ _; NumberFacts.order_finish.
Qed.

Lemma truthy_not_nan (x : number) : truthyNumber x = true -> is_nan x = false.
Proof.
  unfold truthyNumber. destruct (is_nan x); [|reflexivity].
  rewrite orb_true_r. discriminate.
Qed.

(** [NaN] is absorbing for the product and the sum. *)
Lemma nan_times_l (x y : number) : is_nan x = true -> is_nan (x * y)%js = true.
Proof.
  rewrite !is_nan_class, FloatAxioms.mul_spec. unfold SF64mul, SFmul.
  destruct (Prim2SF x); try discriminate. reflexivity.
Qed.

Lemma nan_times_r (x y : number) : is_nan y = true -> is_nan (x * y)%js = true.
Proof.
  rewrite !is_nan_class, FloatAxioms.mul_spec. unfold SF64mul, SFmul.
  destruct (Prim2SF y); try discriminate. destruct (Prim2SF x); reflexivity.
Qed.

Lemma nan_plus_l (x y : number) : is_nan x = true -> is_nan (x + y)%js = true.
Proof.
  rewrite !is_nan_class, FloatAxioms.add_spec. unfold SF64add, SFadd.
  destruct (Prim2SF x); try discriminate. reflexivity.
Qed.

Lemma nan_plus_r (x y : number) : is_nan y = true -> is_nan (x + y)%js = true.
Proof.
  rewrite !is_nan_class, FloatAxioms.add_spec. unfold SF64add, SFadd.
  destruct (Prim2SF y); try discriminate. destruct (Prim2SF x); reflexivity.
Qed.

(** No number is below, above or equal to [NaN]. *)
Lemma nan_le_l (x y : number) : is_nan x = true -> (x <= y)%js = false.
Proof.
  rewrite is_nan_class, FloatAxioms.leb_spec.
  destruct (Prim2SF x); try discriminate. reflexivity.
Qed.

Lemma nan_le_r (x y : number) : is_nan y = true -> (x <= y)%js = false.
Proof.
  rewrite is_nan_class, FloatAxioms.leb_spec.
  destruct (Prim2SF y); try discriminate. destruct (Prim2SF x); reflexivity.
Qed.

End NaNFacts.

Module IOFacts.

Lemma in_orders (ev : Event) (t : list Event) :
  In ev (orders t) <-> In ev t /\ isOrder ev = true.
Proof. apply filter_In. Qed.


(** The events of [m ;; k] are those of [m], then those of [k] on the value
    of [m]. *)
Lemma trace_bind {A B} (m : IO A) (k : A -> IO B) :
  trace (bind m k) =
    match outcome m with
    | Resolve a => (trace m ++ trace (k a))%list
    | Throw _ => trace m
    end.
Proof.
  destruct m as [t [a|e]]; unfold bind, trace, outcome; simpl;
    [destruct (k a)|]; reflexivity.
Qed.

Lemma outcome_bind {A B} (m : IO A) (k : A -> IO B) :
  outcome (bind m k) =
    match outcome m with
    | Resolve a => outcome (k a)
    | Throw e => Throw e
    end.
Proof.
  destruct m as [t [a|e]]; unfold bind, trace, outcome; simpl;
    [destruct (k a)|]; reflexivity.
Qed.

Lemma trace_tryCatch {A} (m : IO A) (handler : Error -> IO A) :
  trace (tryCatch m handler) =
    match outcome m with
    | Resolve _ => trace m
    | Throw e => (trace m ++ trace (handler e))%list
    end.
Proof.
  destruct m as [t [a|e]]; unfold tryCatch, trace, outcome; simpl;
    [|destruct (handler e)]; reflexivity.
Qed.

Lemma outcome_tryCatch {A} (m : IO A) (handler : Error -> IO A) :
  outcome (tryCatch m handler) =
    match outcome m with
    | Resolve a => Resolve a
    | Throw e => outcome (handler e)
    end.
Proof.
  destruct m as [t [a|e]]; unfold tryCatch, trace, outcome; simpl;
    [|destruct (handler e)]; reflexivity.
Qed.

(** A handler that only logs adds no event. *)
Lemma trace_tryCatch_log {A} (m : IO A) (a : A) :
  trace (tryCatch m (fun _ => ret a)) = trace m.
Proof.
  rewrite trace_tryCatch. destruct (outcome m); [reflexivity|apply app_nil_r].
Qed.

Lemma outcome_tryCatch_log {A} (m : IO A) (a : A) :
  exists a' : A, outcome (tryCatch m (fun _ => ret a)) = Resolve a'.
Proof.
  rewrite outcome_tryCatch. destruct (outcome m) as [a'|e];
    [exists a'|exists a]; reflexivity.
Qed.

(** The events of a loop come from its turns, each on its own item. *)
Lemma trace_forEachFrom {A} (body : nat -> A -> IO unit) (items : list A)
    (i : nat) (ev : Event) :
  In ev (trace (forEachFrom body i items)) ->
  exists (j : nat) (x : A),
    nth_error items j = Some x /\ In ev (trace (body (i + j) x)).
Proof.
  revert i. induction items as [|x rest IH]; intros i; [intros []|].
  cbn [forEachFrom]. rewrite trace_bind.
  destruct (outcome (body i x)) as [[]|e].
  - rewrite in_app_iff. intros [Hhere|Hlater].
    + exists 0, x. rewrite Nat.add_0_r. auto.
    + destruct (IH (S i) Hlater) as (j & y & Hnth & Hin).
      exists (S j), y. rewrite Nat.add_succ_r. auto.
  - intros Hhere. exists 0, x. rewrite Nat.add_0_r. auto.
Qed.


End IOFacts.


(* ================================================================== *)
(** ** Candles, indicators and the scan *)
(* ================================================================== *)

Module ScannerLoopFacts.
Import Scanner ScannerLoop Text NaNFacts IOFacts.

(** *** Candles *)

(** Property X4.  [fetchKlines] fails exactly when the request fails or answers no
    candle: it never resolves on an empty answer. *)
Theorem fetchKlines_failure (response : Reply (list Candle)) (now0 : number) :
  (exists message : string, fetchKlines response now0 = Failure message)
  <-> ((exists message : string, response = Failure message) \/ response = Data []).
Proof.
  destruct response as [[|c rest]|message]; simpl; split.
  - auto.
  - intros _. eauto.
  - intros [message Hfail]. discriminate.
  - intros [[message Hfail]|Hempty]; discriminate.
  - eauto.
  - eauto.
Qed.

(** Property X5.  On a non-empty answer [fetchKlines] keeps every candle in order, with
    its timestamp and its close, except the last one, which it drops
    exactly when it is less than 60000 ms old. *)
Theorem fetchKlines_drops_last (candles : list Candle) (lastCandle : Candle)
    (now0 : number) :
  lastOf candles = Some lastCandle ->
  exists kept : list Kline,
    fetchKlines (Data candles) now0 = Data kept
    /\ List.length kept =
         List.length candles
         - (if (now0 - candleTimestamp lastCandle < 60000)%js then 1 else 0)
    /\ forall (i : nat) (k : Kline),
         nth_error kept i = Some k ->
         exists c : Candle,
           nth_error candles i = Some c
           /\ klineTimestamp k = candleTimestamp c
           /\ klineClose k = parseFloatNumber (candleClose c).
Proof.
  intros Hlast. unfold fetchKlines. rewrite Hlast.
  change (1 * 60 * 1000)%js with 60000%float.
  eexists. split; [reflexivity|].
  destruct (now0 - candleTimestamp lastCandle < 60000)%js.
  - rewrite length_map, removelast_firstn_len, length_firstn.
    split; [lia|].
    intros i k. rewrite nth_error_map, nth_error_firstn.
    destruct (i <? Nat.pred (List.length candles))%nat; [|discriminate].
    destruct (nth_error candles i) as [c|]; [|discriminate].
    intros [= <-]. eauto.
  - rewrite length_map. split; [lia|].
    intros i k. rewrite nth_error_map.
    destruct (nth_error candles i) as [c|]; [|discriminate].
    intros [= <-]. eauto.
Qed.

Lemma fetchKlines_drops_last_witness :
  let young := {| candleTimestamp := 120000; candleOpen := 1; candleHigh := 1;
                  candleLow := 1; candleClose := 0.5; candleVolume := 9 |} in
  let old := {| candleTimestamp := 60000; candleOpen := 1; candleHigh := 1;
                candleLow := 1; candleClose := 0.25; candleVolume := 9 |} in
  lastOf [old; young] = Some young
  /\ exists kept : list Kline,
       fetchKlines (Data [old; young]) 150000 = Data kept
       /\ List.length kept = 1.
Proof.
  intros young old. split; [reflexivity|].
  destruct (fetchKlines_drops_last [old; young] young 150000 eq_refl)
    as (kept & Hkept & Hlength & _).
  exists kept. split; [exact Hkept|exact Hlength].
Defined.

(** Property X6.  [calculateRSI] succeeds exactly when the candles arrive, there is at
    least one, and the indicator library answers; its [rsi] is then the
    last value of the indicator ([undefined] for an empty series), and its
    timestamp and last close are those of the last candle. *)
Theorem calculateRSI_success
    (rsiIndicator : list number -> nat -> Reply (list number))
    (symbol0 : string) (response : Reply (list Candle)) (result : RsiResult) :
  calculateRSI rsiIndicator symbol0 response = Data result
  <-> exists (candles : list Candle) (lastCandle : Candle) (series : list number),
        response = Data candles
        /\ lastOf candles = Some lastCandle
        /\ rsiIndicator (map candleClose candles) RSI_PERIOD = Data series
        /\ result = {| rsi := lastOf series;
                       rsiTimestamp := candleTimestamp lastCandle;
                       lastClose := candleClose lastCandle |}.
Proof.
  unfold calculateRSI, fetchOHLCV. split.
  - destruct response as [candles|message]; [|discriminate].
    destruct (rsiIndicator (map candleClose candles) RSI_PERIOD)
      as [series|message] eqn:Hseries; [|discriminate].
    destruct (lastOf candles) as [lastCandle|] eqn:Hlast; [|discriminate].
    intros [= <-]. exists candles, lastCandle, series. auto.
  - intros (candles & lastCandle & series & -> & Hlast & Hseries & ->).
    rewrite Hseries, Hlast. reflexivity.
Qed.

(** *** The manual EMA *)

Lemma emaFrom_length (k ema : number) (closePrices : list number) :
  List.length (emaFrom k ema closePrices) = List.length closePrices.
Proof.
  revert ema. induction closePrices as [|price rest IH]; intros ema; simpl;
    [reflexivity|]. rewrite IH. reflexivity.
Qed.

(** Property X7.  The result of [calculateManualEMA] has one value for each close and
    starts with the first close; on no close at all it is the one-element
    array [[undefined]]. *)
Theorem calculateManualEMA_length `{Builtins} (closePrices : list number)
    (per : value) :
  List.length (calculateManualEMA closePrices per)
    = Nat.max 1 (List.length closePrices)
  /\ nth_error (calculateManualEMA closePrices per) 0
     = Some (nth_error closePrices 0).
Proof.
  unfold calculateManualEMA. destruct closePrices as [|first rest]; simpl.
  - split; reflexivity.
  - rewrite length_map, emaFrom_length. split; reflexivity.
Qed.

Lemma ema_step_nan (k ema price : number) :
  is_nan price = true \/ is_nan ema = true ->
  is_nan (price * k + ema * (1 - k))%js = true.
Proof.
  intros [Hprice|Hema].
  - apply nan_plus_l, nan_times_l, Hprice.
  - apply nan_plus_r, nan_times_l, Hema.
Qed.

Lemma emaFrom_nan_seed (k ema : number) (closePrices : list number) (j : nat) :
  is_nan ema = true ->
  j < List.length closePrices ->
  exists y : number,
    nth_error (emaFrom k ema closePrices) j = Some y /\ is_nan y = true.
Proof.
  revert ema j. induction closePrices as [|price rest IH]; intros ema j Hema Hj;
    simpl in Hj; [lia|].
  pose proof (ema_step_nan k ema price (or_intror Hema)) as Hstep.
  destruct j as [|j]; simpl; [eauto|].
  apply IH; [exact Hstep|lia].
Qed.

Lemma emaFrom_nan_price (k ema : number) (closePrices : list number)
    (i j : nat) (x : number) :
  nth_error closePrices i = Some x ->
  is_nan x = true ->
  i <= j -> j < List.length closePrices ->
  exists y : number,
    nth_error (emaFrom k ema closePrices) j = Some y /\ is_nan y = true.
Proof.
  revert ema i j. induction closePrices as [|price rest IH];
    intros ema i j Hnth Hx Hij Hj; [destruct i; discriminate|].
  simpl in Hj. destruct i as [|i]; simpl in Hnth.
  - injection Hnth as ->.
    pose proof (ema_step_nan k ema x (or_introl Hx)) as Hstep.
    destruct j as [|j]; simpl; [eauto|].
    apply emaFrom_nan_seed; [exact Hstep|lia].
  - destruct j as [|j]; [lia|]. simpl.
    apply (IH _ i j Hnth Hx); lia.
Qed.

(** Property X8.  A close that is [NaN] poisons the manual EMA from its position on:
    every later value is [NaN]. *)
Theorem calculateManualEMA_nan `{Builtins} (closePrices : list number)
    (per : value) (i j : nat) (x : number) :
  nth_error closePrices i = Some x ->
  is_nan x = true ->
  i <= j -> j < List.length closePrices ->
  exists y : number,
    nth_error (calculateManualEMA closePrices per) j = Some (Some y)
    /\ is_nan y = true.
Proof.
  unfold calculateManualEMA.
  destruct closePrices as [|first rest]; intros Hnth Hx Hij Hj;
    [destruct i; discriminate|].
  simpl in Hj. destruct j as [|j].
  - destruct i; [|lia]. simpl in Hnth. injection Hnth as ->. simpl. eauto.
  - cbn [nth_error]. rewrite nth_error_map.
    match goal with
    | |- context [emaFrom ?k first rest] =>
        assert (exists y, nth_error (emaFrom k first rest) j = Some y
                          /\ is_nan y = true) as (y & -> & Hy)
    end.
    { destruct i as [|i]; simpl in Hnth.
      - injection Hnth as ->. apply emaFrom_nan_seed; [exact Hx|lia].
      - apply (emaFrom_nan_price _ _ _ i j x Hnth Hx); lia. }
    simpl. eauto.
Qed.

Lemma calculateManualEMA_nan_witness :
  nth_error [1%float; nan; 3%float] 1 = Some nan
  /\ is_nan nan = true
  /\ exists y : number,
       nth_error (calculateManualEMA (H := decimalBuiltins) [1%float; nan; 3%float]
                                     (Str "5")) 2 = Some (Some y)
       /\ is_nan y = true.
Proof.
  repeat (split; [reflexivity|]).
  apply (calculateManualEMA_nan (H := decimalBuiltins) _ (Str "5") 1 2 nan);
    solve [reflexivity | simpl; lia].
Defined.

(** *** Opening a position *)

Lemma scanner_getBalance_trace (ex : Exchange) : trace (getBalance ex) = [].
Proof. unfold getBalance. destruct (fetchBalance ex); reflexivity. Qed.

(** The balance [getBalance] resolves to is never [NaN]. *)
Lemma getBalance_not_nan (ex : Exchange) (balance : number) :
  outcome (getBalance ex) = Resolve balance -> is_nan balance = false.
Proof.
  unfold getBalance. destruct (fetchBalance ex) as [[usdt|]|e]; run_io;
    intros [= <-]; [|reflexivity].
  destruct (truthyNumber usdt) eqn:Htruthy;
    [apply truthy_not_nan, Htruthy|reflexivity].
Qed.

Lemma scanner_getMarketPrice_trace (ex : Exchange) (symbol0 : string) :
  trace (getMarketPrice ex symbol0) = [].
Proof.
  unfold getMarketPrice.
  destruct (fetchTicker ex symbol0) as [ticker|e]; run_io; [|reflexivity].
  destruct (ToBoolean _); reflexivity.
Qed.

(** The price [getMarketPrice] resolves to is truthy: never [0], [NaN],
    the empty string or [undefined]. *)
Lemma getMarketPrice_truthy (ex : Exchange) (symbol0 : string) (price : value) :
  outcome (getMarketPrice ex symbol0) = Resolve price -> ToBoolean price = true.
Proof.
  unfold getMarketPrice.
  destruct (fetchTicker ex symbol0) as [ticker|e]; run_io; [|discriminate].
  destruct (ToBoolean _) eqn:Htruthy; run_io; [|discriminate].
  intros [= <-]. exact Htruthy.
Qed.

(** Property X9.  [openPosition] places at most one order.  It places it exactly when
    the request for the positions resolves to something else than an array
    of [MAX_ACTIVE_POSITIONS] positions or more, the free balance is at
    least [POSITION_USDT] and the price is fetched; the quantity is
    [AMOUNT_PER_POSITION] divided by that price, which is truthy.  An
    answer that is not an array (the body of a refusal) is not held back:
    the position limit only applies to arrays. *)
Theorem openPosition_guarded `{Builtins} (c : Config) (ex : Exchange)
    (symbol0 side : string) :
  List.length (orders (trace (openPosition c ex symbol0 side))) <= 1
  /\ (forall ev : Event,
        In ev (orders (trace (openPosition c ex symbol0 side))) ->
        exists (positionData : PositionData) (balance : number) (price : value),
          futuresPositionRisk ex = Resolve positionData
          /\ (forall rows : list Position,
                positionData = Positions rows ->
                List.length rows < MAX_ACTIVE_POSITIONS c)
          /\ outcome (getBalance ex) = Resolve balance
          /\ (balance >= POSITION_USDT)%js = true
          /\ outcome (getMarketPrice ex symbol0) = Resolve price
          /\ ToBoolean price = true
          /\ ev = CreateOrder symbol0 side (AMOUNT_PER_POSITION / toNum price)%js
                             (if side =? "Buy" then "LONG" else "SHORT"))
  /\ (forall (positionData : PositionData) (balance : number) (price : value),
        futuresPositionRisk ex = Resolve positionData ->
        (forall rows : list Position,
            positionData = Positions rows ->
            List.length rows < MAX_ACTIVE_POSITIONS c) ->
        outcome (getBalance ex) = Resolve balance ->
        (balance >= POSITION_USDT)%js = true ->
        outcome (getMarketPrice ex symbol0) = Resolve price ->
        orders (trace (openPosition c ex symbol0 side)) =
          [CreateOrder symbol0 side (AMOUNT_PER_POSITION / toNum price)%js
                       (if side =? "Buy" then "LONG" else "SHORT")])
  /\ (forall (code : Z) (msg : string) (balance : number) (price : value),
        futuresPositionRisk ex = Resolve (ErrorBody code msg) ->
        outcome (getBalance ex) = Resolve balance ->
        (balance >= POSITION_USDT)%js = true ->
        outcome (getMarketPrice ex symbol0) = Resolve price ->
        orders (trace (openPosition c ex symbol0 side)) =
          [CreateOrder symbol0 side (AMOUNT_PER_POSITION / toNum price)%js
                       (if side =? "Buy" then "LONG" else "SHORT")]).
Proof.
  pose proof (scanner_getBalance_trace ex) as Hbt.
  pose proof (getBalance_not_nan ex) as Hbn.
  pose proof (scanner_getMarketPrice_trace ex symbol0) as Hpt.
  pose proof (getMarketPrice_truthy ex symbol0) as Hpn.
  assert (forall (positionData : PositionData) (balance : number) (price : value),
             futuresPositionRisk ex = Resolve positionData ->
             limitReached c positionData = false ->
             outcome (getBalance ex) = Resolve balance ->
             (balance >= POSITION_USDT)%js = true ->
             outcome (getMarketPrice ex symbol0) = Resolve price ->
             orders (trace (openPosition c ex symbol0 side)) =
               [CreateOrder symbol0 side (AMOUNT_PER_POSITION / toNum price)%js
                            (if side =? "Buy" then "LONG" else "SHORT")])
    as Hplaced.
  { intros positionData balance price Hresp Hmax Hbalance Hgate Hprice.
    unfold openPosition. rewrite Hresp.
    destruct (getBalance ex) as [tb [b|e]]; simpl in Hbt, Hbalance; subst tb;
      [injection Hbalance as ->|discriminate].
    destruct (getMarketPrice ex symbol0) as [tp [p|e]]; simpl in Hpt, Hprice;
      subst tp; [injection Hprice as ->|discriminate].
    run_io. rewrite Hmax.
    apply NumberFacts.le_not_gt in Hgate as Hlt. rewrite Hlt.
    destruct (createOrder ex symbol0 side _ _); reflexivity. }
  split; [|split; [|split]].
  - unfold openPosition.
    destruct (futuresPositionRisk ex) as [positionData|e]; [|run_io; lia].
    destruct (limitReached c positionData) eqn:Hmax;
      [run_io; rewrite Hmax; run_io; lia|].
    destruct (getBalance ex) as [tb [balance|e]]; simpl in Hbt; subst tb;
      [|run_io; rewrite Hmax; run_io; lia].
    destruct (balance < POSITION_USDT)%js eqn:Hgate;
      [run_io; rewrite Hmax, Hgate; run_io; lia|].
    destruct (getMarketPrice ex symbol0) as [tp [price|e]]; simpl in Hpt; subst tp;
      run_io; rewrite Hmax, Hgate; run_io; [|lia].
    destruct (createOrder ex symbol0 side _ _); run_io; lia.
  - unfold openPosition.
    destruct (futuresPositionRisk ex) as [positionData|e];
      [|run_io; intros ev []].
    destruct (limitReached c positionData) eqn:Hmax;
      [run_io; rewrite Hmax; run_io; intros ev []|].
    pose proof (proj1 (ScannerFacts.limitReached_false c positionData) Hmax)
      as Hcount.
    destruct (getBalance ex) as [tb [balance|e]]; simpl in Hbt; subst tb;
      [|run_io; rewrite Hmax; run_io; intros ev []].
    specialize (Hbn balance eq_refl).
    destruct (balance < POSITION_USDT)%js eqn:Hgate;
      [run_io; rewrite Hmax, Hgate; run_io; intros ev []|].
    apply not_lt_ge in Hgate; [|exact Hbn|reflexivity].
    destruct (getMarketPrice ex symbol0) as [tp [price|e]]; simpl in Hpt; subst tp.
    + specialize (Hpn price eq_refl).
      run_io. rewrite Hmax.
      apply NumberFacts.le_not_gt in Hgate as Hlt. rewrite Hlt.
      destruct (createOrder ex symbol0 side _ _); run_io;
        intros ev [<-|[]];
        exists positionData, balance, price; repeat split; trivial.
    + run_io. rewrite Hmax.
      apply NumberFacts.le_not_gt in Hgate as Hlt. rewrite Hlt.
      run_io. intros ev [].
  - intros positionData balance price Hresp Hcount.
    apply (proj2 (ScannerFacts.limitReached_false c positionData)) in Hcount.
    eauto.
  - intros code msg balance price Hresp. eapply Hplaced; [exact Hresp|reflexivity].
Qed.

(** The exchange refuses the request for the positions, answers the two
    others, and the order is placed. *)
Lemma openPosition_guarded_witness :
  futuresPositionRisk Samples.refused
    = Resolve (ErrorBody (-1021) "Timestamp for this request is outside of the recvWindow.")
  /\ outcome (getBalance Samples.refused) = Resolve 50%float
  /\ (50 >= POSITION_USDT)%js = true
  /\ outcome (getMarketPrice Samples.refused "DOGEUSDT") = Resolve (Num 0.5)
  /\ orders (trace (openPosition (H := decimalBuiltins) sourceConfig Samples.refused
                                  "DOGEUSDT" "sell"))
     = [CreateOrder "DOGEUSDT" "sell" 30 "SHORT"].
Proof.
  repeat (split; [reflexivity|]).
  pose proof (openPosition_guarded (H := decimalBuiltins) sourceConfig
                Samples.refused "DOGEUSDT" "sell") as (_ & _ & _ & Hrefused).
  exact (Hrefused _ _ 50%float (Num 0.5) eq_refl eq_refl eq_refl eq_refl).
Defined.

(** *** The scan *)

Section Scan.
Context `{Builtins}.
Variable rsiIndicator : list number -> nat -> Reply (list number).
Variable emaIndicator : nat -> list number -> Reply (list number).

(** An order placed while a symbol is scanned. *)
Lemma scanSymbol_orders (c : Config) (feed : Feed) (symbol0 : field) (ev : Event) :
  In ev (orders (trace (scanSymbol rsiIndicator emaIndicator c feed symbol0))) ->
  exists (symbol1 : string) (rsiResult : RsiResult) (rsi0 : number) (price : value)
         (positionData : PositionData) (side : string) (quantity : number)
         (positionSide0 : string),
    symbol0 = Some symbol1
    /\ ~ In symbol1 EXCLUDED_SYMBOLS
    /\ calculateRSI rsiIndicator (normalizeSymbol symbol1) (ohlcv feed) = Data rsiResult
    /\ rsi rsiResult = Some rsi0
    /\ outcome (getMarketPrice (quote feed) (normalizeSymbol symbol1)) = Resolve price
    /\ futuresPositionRisk (exchange feed) = Resolve positionData
    /\ match positionData with
       | Positions rows =>
           sideOf (evaluate c rsi0 (toNum price) (List.length rows)) = Some side
       | ErrorBody _ _ =>
           sideOf (entrySignal c rsi0 (toNum price)) = Some side
       end
    /\ ev = CreateOrder symbol1 side quantity positionSide0.
Proof.
  unfold scanSymbol. rewrite trace_tryCatch_log.
  destruct (existsb (equals symbol0) EXCLUDED_SYMBOLS) eqn:Hexcluded; [intros []|].
  destruct symbol0 as [symbol1|]; [|intros []].
  destruct (calculateRSI rsiIndicator (normalizeSymbol symbol1) (ohlcv feed))
    as [rsiResult|message] eqn:Hrsi; [|intros []].
  destruct (rsi rsiResult) as [rsi0|] eqn:Hlatest; [|intros []].
  destruct (fetchKlines (klines feed) (now feed)) as [klines0|message]; [|intros []].
  destruct (calculateEMA emaIndicator (map klineClose klines0) 20)
    as [ema20Values|message]; [|intros []].
  rewrite trace_bind, scanner_getMarketPrice_trace.
  destruct (outcome (getMarketPrice (quote feed) (normalizeSymbol symbol1)))
    as [price|e] eqn:Hprice; [|intros []].
  cbn [app]. intros Hin.
  destruct (ScannerFacts.tradeSymbol_orders c (check feed) (exchange feed)
              symbol1 rsi0 price ev Hin)
    as (positionData & side & quantity & ps & Hresp & Hside & ->).
  exists symbol1, rsiResult, rsi0, price, positionData, side, quantity, ps.
  repeat split; trivial.
  intros [<-|[]]. simpl in Hexcluded. discriminate.
Qed.

(** Property X10.  Every order of a scan is a market order on a symbol that the exchange
    lists as a trading USDT perpetual and that is not excluded; the RSI of
    that symbol was computed and its price fetched.  When [openPosition]
    received an array of positions, the side of the order is the entry
    decision on that RSI, that price and the length of the array; when it
    received something else, the side is what the rules of [main] ask for
    on that RSI and that price, with no limit on the positions. *)
Theorem scanCycle_orders (c : Config) (account : Exchange)
    (exchangeInfo : Outcome (list SymbolInfo)) (feedAt : nat -> Feed) (ev : Event) :
  In ev (orders (trace (scanCycle rsiIndicator emaIndicator c account
                                  exchangeInfo feedAt))) ->
  exists (infos : list SymbolInfo) (info : SymbolInfo) (i : nat) (symbol1 : string)
         (rsi0 : number) (price : value) (positionData : PositionData)
         (side : string) (quantity : number) (positionSide0 : string),
    exchangeInfo = Resolve infos
    /\ In info infos
    /\ contractType info = Some "PERPETUAL"
    /\ quoteAsset info = Some "USDT"
    /\ status info = Some "TRADING"
    /\ infoSymbol info = Some symbol1
    /\ ~ In symbol1 EXCLUDED_SYMBOLS
    /\ (exists rsiResult : RsiResult,
          calculateRSI rsiIndicator (normalizeSymbol symbol1) (ohlcv (feedAt i))
            = Data rsiResult
          /\ rsi rsiResult = Some rsi0)
    /\ outcome (getMarketPrice (quote (feedAt i)) (normalizeSymbol symbol1))
         = Resolve price
    /\ futuresPositionRisk (exchange (feedAt i)) = Resolve positionData
    /\ match positionData with
       | Positions rows =>
           sideOf (evaluate c rsi0 (toNum price) (List.length rows)) = Some side
       | ErrorBody _ _ =>
           sideOf (entrySignal c rsi0 (toNum price)) = Some side
       end
    /\ ev = CreateOrder symbol1 side quantity positionSide0.
Proof.
  unfold scanCycle. rewrite trace_tryCatch_log, trace_bind, scanner_getBalance_trace.
  destruct (outcome (getBalance account)) as [balance|e]; [|intros []].
  cbn [app]. rewrite trace_bind.
  destruct exchangeInfo as [infos|e]; [|intros []].
  cbn [await trace outcome fst snd app]. intros Hin.
  apply in_orders in Hin as [Hin Horder].
  apply trace_forEachFrom in Hin as (j & symbol0 & Hnth & Hin).
  assert (In ev (orders (trace (scanSymbol rsiIndicator emaIndicator c
                                           (feedAt (0 + j)) symbol0)))) as Hscan
      by (apply in_orders; auto).
  apply scanSymbol_orders in Hscan
    as (symbol1 & rsiResult & rsi0 & price & positionData & side & quantity & ps
        & -> & Hexcluded & Hrsi & Hlatest & Hprice & Hresp & Hside & ->).
  apply nth_error_In in Hnth. unfold tradableSymbols in Hnth.
  apply in_map_iff in Hnth as (info & Hsymbol & Hinfo).
  apply filter_In in Hinfo as [Hinfo Hlisted].
  rewrite !andb_true_iff, !ManagerFacts.equals_eq in Hlisted.
  destruct Hlisted as [[Hcontract Hquote] Hstatus].
  exists infos, info, (0 + j), symbol1, rsi0, price, positionData, side, quantity, ps.
  repeat split; eauto.
Qed.

End Scan.

Lemma scanCycle_orders_witness :
  let ev := CreateOrder "DOGEUSDT" "sell" 30 "SHORT" in
  let cycle :=
    scanCycle (H := decimalBuiltins) LoopSamples.overbought LoopSamples.noAverage
              sourceConfig LoopSamples.noPosition
              (Resolve [LoopSamples.dogeInfo]) (fun _ => LoopSamples.dogeFeed) in
  In ev (orders (trace cycle))
  /\ exists info : SymbolInfo,
       In info [LoopSamples.dogeInfo]
       /\ status info = Some "TRADING"
       /\ infoSymbol info = Some "DOGEUSDT".
Proof.
  intros ev cycle.
  assert (In ev (orders (trace cycle))) as Hin by (left; reflexivity).
  split; [exact Hin|].
  destruct (scanCycle_orders (H := decimalBuiltins) _ _ _ _ _ _ ev Hin)
    as (infos & info & i & symbol1 & rsi0 & price & positionData & side
        & quantity & ps & Hinfos & Hlisted & _ & _ & Hstatus & Hsymbol & _ & _
        & _ & _ & _ & Horder).
  injection Hinfos as <-. injection Horder as <- _ _ _.
  exists info. auto.
Defined.

End ScannerLoopFacts.


(* ================================================================== *)
(** ** The monitoring loop and the trades *)
(* ================================================================== *)

Module ManagerLoopFacts.
Import Manager ManagerLoop Text NaNFacts IOFacts.

(** *** The monitoring loop *)




(** Property X12.  [addMarginToPosition] is a dry run: it always resolves, whatever
    fails, it places no order, and all it emits is at most the one
    Telegram message that announces the amount. *)
Theorem addMarginToPosition_dry_run `{Builtins} (c : Config) (ex : Exchange)
    (position : option Position) :
  outcome (addMarginToPosition c ex position) = Resolve tt
  /\ orders (trace (addMarginToPosition c ex position)) = []
  /\ List.length (trace (addMarginToPosition c ex position)) <= 1.
Proof.
  pose proof (ManagerFacts.getBalance_trace ex) as Htrace.
  unfold addMarginToPosition, addMarginToPosition_try.
  destruct position as [position|]; [|repeat split; simpl; lia].
  destruct (truthy (symbol position)); [|repeat split; simpl; lia].
  destruct (equals (isolatedWallet position) "0"); [repeat split; simpl; lia|].
  simpl negb. cbv iota.
  destruct (getBalance ex) as [t [usdtBalance|e]]; simpl in Htrace; subst t;
    [|repeat split; simpl; lia].
  run_io. destruct (usdtBalance < amountForSupport c position)%js; run_io;
    [repeat split; lia|].
  destruct (fapiPrivateGetPositionSideDual ex); run_io; [|repeat split; lia].
  destruct (fetchPositions ex _) as [[]|e]; run_io; repeat split; lia.
Qed.

(** *** The order of the trades *)

Lemma insertByTime_permutation (trade : Trade) (sorted : list Trade) :
  Permutation (insertByTime trade sorted) (trade :: sorted).
Proof.
  induction sorted as [|next rest IH]; simpl; [reflexivity|].
  destruct (tradeTime trade <=? tradeTime next)%Z; [reflexivity|].
  rewrite IH. apply perm_swap.
Qed.

Lemma sortByTime_permutation (trades : list Trade) :
  Permutation (sortByTime trades) trades.
Proof.
  induction trades as [|trade rest IH]; simpl; [reflexivity|].
  rewrite insertByTime_permutation, IH. reflexivity.
Qed.

Definition earlier (a b : Trade) : Prop := (tradeTime a <= tradeTime b)%Z.

Lemma insertByTime_sorted (trade : Trade) (sorted : list Trade) :
  Sorted earlier sorted -> Sorted earlier (insertByTime trade sorted).
Proof.
  induction sorted as [|next rest IH]; intros Hsorted; simpl.
  - repeat constructor.
  - destruct (Z.leb_spec (tradeTime trade) (tradeTime next)).
    + constructor; [exact Hsorted|]. constructor. exact H.
    + inversion Hsorted as [|? ? Hrest Hhead]; subst.
      constructor; [apply IH, Hrest|].
      destruct rest as [|third rest]; simpl.
      * constructor. unfold earlier. lia.
      * destruct (tradeTime trade <=? tradeTime third)%Z;
          constructor; [unfold earlier; lia|].
        inversion Hhead. assumption.
Qed.

(** The trades are gone through by non-decreasing time, each one once. *)
Lemma sortByTime_sorted (trades : list Trade) : Sorted earlier (sortByTime trades).
Proof.
  induction trades as [|trade rest IH]; simpl;
    [constructor|apply insertByTime_sorted, IH].
Qed.

Lemma insertByTime_comm (a b : Trade) (sorted : list Trade) :
  tradeTime a <> tradeTime b ->
  insertByTime a (insertByTime b sorted) = insertByTime b (insertByTime a sorted).
Proof.
  intros Hdistinct.
  induction sorted as [|next rest IH];
    repeat (simpl;
            match goal with
            | |- context [(?x <=? ?y)%Z] => destruct (Z.leb_spec x y)
            end);
    try reflexivity; try lia.
  rewrite IH. reflexivity.
Qed.

(** With pairwise distinct times, the order in which the exchange lists
    the trades does not matter. *)
Lemma sortByTime_invariant (trades trades' : list Trade) :
  Permutation trades trades' ->
  NoDup (map tradeTime trades) ->
  sortByTime trades = sortByTime trades'.
Proof.
  induction 1 as [|x l l' Hperm IH|x y l|l l' l'' Hperm1 IH1 Hperm2 IH2];
    intros Hdistinct; simpl in *.
  - reflexivity.
  - inversion Hdistinct; subst. rewrite IH by assumption. reflexivity.
  - inversion Hdistinct as [|? ? Hy Hrest]; subst.
    apply insertByTime_comm. intros Heq. apply Hy. left. symmetry. exact Heq.
  - rewrite IH1 by assumption. apply IH2.
    eapply Permutation_NoDup; [apply Permutation_map, Hperm1|exact Hdistinct].
Qed.

(** *** The creation date of a position *)

Section Creation.
Context `{Builtins}.

Lemma accumulated_cons (start : number) (trade : Trade) (trades : list Trade) :
  accumulated start (trade :: trades)
  = accumulated (start + signedQty trade)%js trades.
Proof. reflexivity. Qed.

(** The loop returns the first trade of the side at which the accumulated
    quantity reaches the target, and [null] when there is none. *)
Lemma findCreationTrade_first (positionSide0 : field) (target : number)
    (trades : list Trade) (start : number) :
  match findCreationTrade positionSide0 target start trades with
  | Some trade =>
      exists before after : list Trade,
        ofSide positionSide0 trades = (before ++ trade :: after)%list
        /\ reaches positionSide0 target (accumulated start before)
                   (accumulated start (before ++ [trade])) = true
        /\ forall (b1 : list Trade) (u : Trade) (b2 : list Trade),
             before = (b1 ++ u :: b2)%list ->
             reaches positionSide0 target (accumulated start b1)
                     (accumulated start (b1 ++ [u])) = false
  | None =>
      forall (b1 : list Trade) (u : Trade) (b2 : list Trade),
        ofSide positionSide0 trades = (b1 ++ u :: b2)%list ->
        reaches positionSide0 target (accumulated start b1)
                (accumulated start (b1 ++ [u])) = false
  end.
Proof.
  revert start. induction trades as [|trade rest IH]; intros start.
  - intros [|? ?] u b2; discriminate.
  - cbn [findCreationTrade ofSide filter].
    destruct (sameField (tradePositionSide trade) positionSide0); [|apply IH].
    fold (ofSide positionSide0 rest).
    assert (forall (A : Type) (a b : bool) (x y : A),
               (if a then x else if b then x else y) = if a || b then x else y)
      as Hor by (intros A [|] [|]; reflexivity).
    rewrite Hor. clear Hor.
    fold (reaches positionSide0 target start (start + signedQty trade)%js).
    destruct (reaches positionSide0 target start (start + signedQty trade)%js)
      eqn:Hreach.
    + exists [], (ofSide positionSide0 rest). repeat split; [exact Hreach|].
      intros [|? ?] u b2; discriminate.
    + specialize (IH (start + signedQty trade)%js).
      destruct (findCreationTrade positionSide0 target
                  (start + signedQty trade)%js rest) as [found|].
      * destruct IH as (before & after & Hsplit & Hfound & Hfirst).
        exists (trade :: before), after. rewrite Hsplit. repeat split.
        -- exact Hfound.
        -- intros [|t0 b1] u b2 Heq; injection Heq as <- Heq.
           ++ subst. exact Hreach.
           ++ apply (Hfirst b1 u b2 Heq).
      * intros [|t0 b1] u b2 Heq; injection Heq as <- Heq.
        -- exact Hreach.
        -- apply (IH b1 u b2 Heq).
Qed.

Context `{DateBuiltins}.

(** Property X13.  When [getPositionCreationDate] names a trade, it is one of the trades
    received, and among those of the position's side, taken by
    non-decreasing time, it is the first at which the accumulated signed
    quantity reaches the position amount: from below for a LONG position,
    from above for a SHORT one.  The result carries the identifier and the
    time of that trade and the arguments of the call. *)
Theorem getPositionCreationDate_first
    (response : Reply (option (list Trade))) (symbol0 : string)
    (positionSide0 positionAmt0 : field) (info : CreationInfo) :
  getPositionCreationDate response symbol0 positionSide0 positionAmt0 = Some info ->
  exists (trades : list Trade) (trade : Trade) (before after : list Trade),
    response = Data (Some trades)
    /\ In trade trades
    /\ ofSide positionSide0 (sortByTime trades) = (before ++ trade :: after)%list
    /\ reaches positionSide0 (parseFloatOf positionAmt0)
               (accumulated 0 before) (accumulated 0 (before ++ [trade])) = true
    /\ (forall (b1 : list Trade) (u : Trade) (b2 : list Trade),
          before = (b1 ++ u :: b2)%list ->
          reaches positionSide0 (parseFloatOf positionAmt0)
                  (accumulated 0 b1) (accumulated 0 (b1 ++ [u])) = false)
    /\ info = {| infoSymbol := symbol0;
                 infoPositionSide := positionSide0;
                 infoPositionAmt := positionAmt0;
                 creationDate := formatTimestamp (tradeTime trade);
                 infoTradeId := tradeId trade;
                 infoTradeTime := tradeTime trade |}.
Proof.
  unfold getPositionCreationDate.
  destruct response as [[trades|]|message]; try discriminate.
  destruct trades as [|first rest]; [discriminate|].
  pose proof (findCreationTrade_first positionSide0 (parseFloatOf positionAmt0)
                (sortByTime (first :: rest)) 0%float) as Hloop.
  destruct (findCreationTrade positionSide0 (parseFloatOf positionAmt0) 0
              (sortByTime (first :: rest))) as [trade|]; [|discriminate].
  intros [= <-].
  destruct Hloop as (before & after & Hsplit & Hreach & Hfirst).
  exists (first :: rest), trade, before, after. repeat split; trivial.
  apply (Permutation_in _ (sortByTime_permutation (first :: rest))).
  assert (In trade (ofSide positionSide0 (sortByTime (first :: rest)))) as Hin
      by (rewrite Hsplit; apply in_elt).
  apply filter_In in Hin. tauto.
Qed.

End Creation.

Lemma getPositionCreationDate_first_witness :
  let trades := [LoopSamples.secondBuy; LoopSamples.shortSell; LoopSamples.firstBuy] in
  let info := {| infoSymbol := "BTCUSDT";
                 infoPositionSide := Some "LONG";
                 infoPositionAmt := Some "0.003";
                 creationDate := "2023-11-14 22:15:20";
                 infoTradeId := 13;
                 infoTradeTime := 1700000120000 |} in
  getPositionCreationDate (H := decimalBuiltins) (H0 := LoopSamples.utcDate)
    (Data (Some trades)) "BTCUSDT" (Some "LONG") (Some "0.003") = Some info
  /\ exists trade : Trade, In trade trades /\ infoTradeId info = tradeId trade.
Proof.
  intros trades info.
  assert (getPositionCreationDate (H := decimalBuiltins) (H0 := LoopSamples.utcDate)
            (Data (Some trades)) "BTCUSDT" (Some "LONG") (Some "0.003") = Some info)
    as Hfound by reflexivity.
  split; [exact Hfound|].
  destruct (getPositionCreationDate_first (H := decimalBuiltins)
              (H0 := LoopSamples.utcDate) _ _ _ _ _ Hfound)
    as (trades0 & trade & before & after & Hresponse & Hin & _ & _ & _ & Hinfo).
  injection Hresponse as <-. exists trade. split; [exact Hin|].
  rewrite Hinfo. reflexivity.
Defined.

Section CreationEdges.
Context `{Builtins} `{DateBuiltins}.

Lemma findCreationTrade_never (positionSide0 : field) (target : number)
    (trades : list Trade) (start : number) :
  (forall previous quantity : number,
      reaches positionSide0 target previous quantity = false) ->
  findCreationTrade positionSide0 target start trades = None.
Proof.
  intros Hnever. revert start.
  induction trades as [|trade rest IH]; intros start; [reflexivity|].
  cbn [findCreationTrade].
  destruct (sameField (tradePositionSide trade) positionSide0); [|apply IH].
  specialize (Hnever start (start + signedQty trade)%js).
  unfold reaches in Hnever. apply orb_false_elim in Hnever as [-> ->]. apply IH.
Qed.

(** Property X14.  [getPositionCreationDate] returns [null] when the trades cannot be
    fetched or there is none, when the position side is neither LONG nor
    SHORT (the side BOTH of the one-way mode, for one), and when the
    position amount does not parse to a number. *)
Theorem getPositionCreationDate_null
    (response : Reply (option (list Trade))) (symbol0 : string)
    (positionSide0 positionAmt0 : field) :
  (forall trades : list Trade, response <> Data (Some trades))
  \/ response = Data (Some [])
  \/ (equals positionSide0 "LONG" = false /\ equals positionSide0 "SHORT" = false)
  \/ is_nan (parseFloatOf positionAmt0) = true ->
  getPositionCreationDate response symbol0 positionSide0 positionAmt0 = None.
Proof.
  unfold getPositionCreationDate.
  intros [Hfetch|[->|Hcase]]; [| reflexivity |].
  - destruct response as [[trades|]|message]; try reflexivity.
    destruct (Hfetch trades eq_refl).
  - destruct response as [[[|first rest]|]|message]; try reflexivity.
    rewrite findCreationTrade_never; [reflexivity|].
    intros previous quantity. unfold reaches.
    destruct Hcase as [[-> ->]|Hnan]; [reflexivity|].
    rewrite (nan_le_l _ quantity Hnan), (nan_le_r quantity _ Hnan).
    rewrite !andb_false_r. reflexivity.
Qed.

(** Property X15.  When no two trades have the same time, the result of
    [getPositionCreationDate] does not depend on the order in which the
    exchange lists the trades. *)
Theorem getPositionCreationDate_order_independent
    (trades trades' : list Trade) (symbol0 : string)
    (positionSide0 positionAmt0 : field) :
  Permutation trades trades' ->
  NoDup (map tradeTime trades) ->
  getPositionCreationDate (Data (Some trades)) symbol0 positionSide0 positionAmt0
  = getPositionCreationDate (Data (Some trades')) symbol0 positionSide0 positionAmt0.
Proof.
  intros Hperm Hdistinct. unfold getPositionCreationDate.
  pose proof (sortByTime_invariant trades trades' Hperm Hdistinct) as Hsorted.
  destruct trades as [|first rest], trades' as [|first' rest']; try reflexivity.
  - apply Permutation_nil in Hperm. discriminate.
  - apply Permutation_sym, Permutation_nil in Hperm. discriminate.
  - rewrite Hsorted. reflexivity.
Qed.

End CreationEdges.

Lemma getPositionCreationDate_null_witness :
  (equals (Some "BOTH") "LONG" = false /\ equals (Some "BOTH") "SHORT" = false)
  /\ getPositionCreationDate (H := decimalBuiltins) (H0 := LoopSamples.utcDate)
       (Data (Some [LoopSamples.shortSell; LoopSamples.firstBuy]))
       "BTCUSDT" (Some "BOTH") (Some "0.001") = None.
Proof.
  split; [split; reflexivity|].
  apply (getPositionCreationDate_null (H := decimalBuiltins)
           (H0 := LoopSamples.utcDate)).
  right. right. left. split; reflexivity.
Defined.

Lemma getPositionCreationDate_order_independent_witness :
  Permutation [LoopSamples.secondBuy; LoopSamples.firstBuy]
              [LoopSamples.firstBuy; LoopSamples.secondBuy]
  /\ NoDup (map tradeTime [LoopSamples.secondBuy; LoopSamples.firstBuy])
  /\ getPositionCreationDate (H := decimalBuiltins) (H0 := LoopSamples.utcDate)
       (Data (Some [LoopSamples.secondBuy; LoopSamples.firstBuy]))
       "BTCUSDT" (Some "LONG") (Some "0.003")
     = getPositionCreationDate (H := decimalBuiltins) (H0 := LoopSamples.utcDate)
         (Data (Some [LoopSamples.firstBuy; LoopSamples.secondBuy]))
         "BTCUSDT" (Some "LONG") (Some "0.003").
Proof.
  assert (NoDup (map tradeTime [LoopSamples.secondBuy; LoopSamples.firstBuy]))
    as Hdistinct.
  { constructor; [simpl; intros [Heq|[]]; discriminate Heq|].
    constructor; [intros []|constructor]. }
  split; [apply perm_swap|]. split; [exact Hdistinct|].
  apply (getPositionCreationDate_order_independent (H := decimalBuiltins)
           (H0 := LoopSamples.utcDate));
    [apply perm_swap|exact Hdistinct].
Defined.

End ManagerLoopFacts.


(* ================================================================== *)
(** ** The text of a timestamp *)
(* ================================================================== *)

Module TimestampFacts.
Import Text TextFacts.

(** A number below 100 is printed on two characters. *)
Lemma pad_two (n : nat) :
  n < 100 ->
  exists a b : ascii, padStart (showNat n) 2 "0" = String a (String b "").
Proof.
  intros Hn.
  assert (forallb (fun n => (String.length (padStart (showNat n) 2 "0") =? 2)%nat)
                  (seq 0 100) = true) as Hall by (vm_compute; reflexivity).
  rewrite forallb_forall in Hall.
  specialize (Hall n (proj2 (in_seq _ _ _) (conj (Nat.le_0_l n) Hn))).
  apply Nat.eqb_eq in Hall.
  destruct (padStart (showNat n) 2 "0") as [|a [|b [|c rest]]]; try discriminate.
  eauto.
Qed.

Lemma pad_two_inj (n m : nat) :
  n < 100 -> m < 100 ->
  padStart (showNat n) 2 "0" = padStart (showNat m) 2 "0" -> n = m.
Proof.
  intros Hn Hm Heq.
  assert (forallb
            (fun n => forallb
                        (fun m => implb (padStart (showNat n) 2 "0"
                                         =? padStart (showNat m) 2 "0")%string
                                        (n =? m)%nat)
                        (seq 0 100))
            (seq 0 100) = true) as Hall by (vm_compute; reflexivity).
  rewrite forallb_forall in Hall.
  specialize (Hall n (proj2 (in_seq _ _ _) (conj (Nat.le_0_l n) Hn))).
  rewrite forallb_forall in Hall.
  specialize (Hall m (proj2 (in_seq _ _ _) (conj (Nat.le_0_l m) Hm))).
  rewrite Heq, String.eqb_refl in Hall. apply Nat.eqb_eq, Hall.
Qed.

(** A year from 1000 to 9999 is printed on four characters. *)
Lemma year_four (y : Z) :
  (1000 <= y <= 9999)%Z ->
  exists a b c d : ascii, showZ y = String a (String b (String c (String d ""))).
Proof.
  intros Hy.
  assert (forallb (fun n => (String.length (showZ (Z.of_nat n)) =? 4)%nat)
                  (seq 1000 (90 * 100)) = true) as Hall by (vm_compute; reflexivity).
  rewrite forallb_forall in Hall.
  specialize (Hall (Z.to_nat y)). rewrite Z2Nat.id in Hall by lia.
  assert (In (Z.to_nat y) (seq 1000 (90 * 100))) as Hin by (apply in_seq; lia).
  apply Hall, Nat.eqb_eq in Hin.
  destruct (showZ y) as [|a [|b [|c [|d [|e rest]]]]]; try discriminate.
  eauto.
Qed.

Lemma showZ_inj (y y' : Z) : showZ y = showZ y' -> y = y'.
Proof.
  unfold showZ. intros Heq. apply DecimalZ.to_int_inj.
  assert (forall z, NilZero.int_of_string (NilZero.string_of_int (Z.to_int z))
                    = Some (Z.to_int z)) as Hread.
  { intros z. apply NilZero.isi; destruct z; simpl; try discriminate;
      intros [= Hnil]; exact (DecimalPos.Unsigned.to_uint_nonnil _ Hnil). }
  pose proof (Hread y) as Hy. rewrite Heq, Hread in Hy. congruence.
Qed.

Lemma append_inj (a a' b b' : string) :
  a ++ b = a' ++ b' -> String.length b = String.length b' -> a = a' /\ b = b'.
Proof.
  intros Heq Hlen.
  assert (String.length a = String.length a') as Hlen'.
  { apply (f_equal String.length) in Heq. rewrite !length_append in Heq. lia. }
  clear Hlen. revert a' Heq Hlen'.
  induction a as [|x a IH]; intros [|x' a'] Heq Hlen'; simpl in *;
    try discriminate; [auto|].
  injection Heq as -> Heq. destruct (IH a' Heq) as [-> ->]; [lia|auto].
Qed.

Section Format.
Context `{DateBuiltins}.

(** Property X16.  For a year from 1000 to 9999 the text of [formatTimestamp] has the
    documented form [YYYY-MM-DD HH:mm:ss]: nineteen characters with the
    separators in their places. *)
Theorem formatTimestamp_shape (timestamp : Z) :
  (1000 <= getFullYear (localDate timestamp) <= 9999)%Z ->
  validParts (localDate timestamp) ->
  String.length (formatTimestamp timestamp) = 19
  /\ String.get 4 (formatTimestamp timestamp) = Some "-"%char
  /\ String.get 7 (formatTimestamp timestamp) = Some "-"%char
  /\ String.get 10 (formatTimestamp timestamp) = Some " "%char
  /\ String.get 13 (formatTimestamp timestamp) = Some ":"%char
  /\ String.get 16 (formatTimestamp timestamp) = Some ":"%char.
Proof.
  unfold formatTimestamp, formatParts, validParts.
  destruct (localDate timestamp) as [y mo d h mi s]. cbn [getFullYear getMonth
    getDate getHours getMinutes getSeconds].
  intros Hy (Hmo & Hd & Hh & Hmi & Hs).
  destruct (year_four y Hy) as (y1 & y2 & y3 & y4 & ->).
  destruct (pad_two (mo + 1)) as (? & ? & ->); [lia|].
  destruct (pad_two d) as (? & ? & ->); [lia|].
  destruct (pad_two h) as (? & ? & ->); [lia|].
  destruct (pad_two mi) as (? & ? & ->); [lia|].
  destruct (pad_two s) as (? & ? & ->); [lia|].
  repeat split; reflexivity.
Qed.

(** Property X17.  Two timestamps have the same text only when they fall in the same
    second of the same day: the text determines the year, the month, the
    day and the time. *)
Theorem formatTimestamp_injective (timestamp timestamp' : Z) :
  validParts (localDate timestamp) ->
  validParts (localDate timestamp') ->
  formatTimestamp timestamp = formatTimestamp timestamp' ->
  localDate timestamp = localDate timestamp'.
Proof.
  unfold formatTimestamp, formatParts, validParts.
  destruct (localDate timestamp) as [y mo d h mi s].
  destruct (localDate timestamp') as [y' mo' d' h' mi' s'].
  cbn [getFullYear getMonth getDate getHours getMinutes getSeconds].
  intros (Hmo & Hd & Hh & Hmi & Hs) (Hmo' & Hd' & Hh' & Hmi' & Hs').
  pose proof (pad_two_inj (mo + 1) (mo' + 1)) as Imo.
  pose proof (pad_two_inj d d') as Id.
  pose proof (pad_two_inj h h') as Ih.
  pose proof (pad_two_inj mi mi') as Imi.
  pose proof (pad_two_inj s s') as Is.
  destruct (pad_two (mo + 1)) as (? & ? & Emo); [lia|]. rewrite Emo in *.
  destruct (pad_two d) as (? & ? & Ed); [lia|]. rewrite Ed in *.
  destruct (pad_two h) as (? & ? & Eh); [lia|]. rewrite Eh in *.
  destruct (pad_two mi) as (? & ? & Emi); [lia|]. rewrite Emi in *.
  destruct (pad_two s) as (? & ? & Es); [lia|]. rewrite Es in *.
  destruct (pad_two (mo' + 1)) as (? & ? & Emo'); [lia|]. rewrite Emo' in *.
  destruct (pad_two d') as (? & ? & Ed'); [lia|]. rewrite Ed' in *.
  destruct (pad_two h') as (? & ? & Eh'); [lia|]. rewrite Eh' in *.
  destruct (pad_two mi') as (? & ? & Emi'); [lia|]. rewrite Emi' in *.
  destruct (pad_two s') as (? & ? & Es'); [lia|]. rewrite Es' in *.
  intros Heq. apply append_inj in Heq as [Hyear Hrest]; [|reflexivity].
  apply showZ_inj in Hyear. simpl in Hrest.
  injection Hrest as -> -> -> -> -> -> -> -> -> ->.
  rewrite (Id ltac:(lia) ltac:(lia) eq_refl),
          (Ih ltac:(lia) ltac:(lia) eq_refl),
          (Imi ltac:(lia) ltac:(lia) eq_refl),
          (Is ltac:(lia) ltac:(lia) eq_refl).
  assert (mo = mo') as -> by (specialize (Imo ltac:(lia) ltac:(lia) eq_refl); lia).
  subst. reflexivity.
Qed.

End Format.

Lemma formatTimestamp_shape_witness :
  (1000 <= getFullYear (localDate (DateBuiltins := LoopSamples.utcDate) 1700000000000)
   <= 9999)%Z
  /\ String.length (formatTimestamp (H := LoopSamples.utcDate) 1700000000000) = 19.
Proof.
  assert (1000 <= getFullYear (localDate (DateBuiltins := LoopSamples.utcDate)
                                         1700000000000) <= 9999)%Z
    as Hyear by (vm_compute; split; discriminate).
  split; [exact Hyear|].
  apply (formatTimestamp_shape (H := LoopSamples.utcDate) 1700000000000 Hyear).
  vm_compute. repeat split; lia.
Defined.

Lemma formatTimestamp_injective_witness :
  formatTimestamp (H := LoopSamples.utcDate) 1700000000000
  = formatTimestamp (H := LoopSamples.utcDate) 1700000000999
  /\ localDate (DateBuiltins := LoopSamples.utcDate) 1700000000000
     = localDate (DateBuiltins := LoopSamples.utcDate) 1700000000999.
Proof.
  assert (formatTimestamp (H := LoopSamples.utcDate) 1700000000000
          = formatTimestamp (H := LoopSamples.utcDate) 1700000000999) as Hsame
      by reflexivity.
  split; [exact Hsame|].
  apply (formatTimestamp_injective (H := LoopSamples.utcDate) _ _);
    [vm_compute; repeat split; lia|vm_compute; repeat split; lia|exact Hsame].
Defined.

End TimestampFacts.
